(** * Bluedroid A2DP audio HAL: stream state machine and write path

    Shallow embedding of [audio_a2dp_hw.c] (the A2DP output stream of the
    bluedroid audio HAL) and the properties of its lifecycle state machine,
    control exchange, write path and stream open.

    The C code mutates one [struct a2dp_stream_out] through a pointer and
    talks to the Bluetooth stack through system calls.  The embedding is a
    state monad over a [machine]: the stream object, the two pointers that
    refer to it, an oracle that gives the result of every system call whose
    result the code reads, and the trace of the system calls made so far.

    Logging ([INFO], [ERROR], [ts_log], [ts_error_log]), the sysfs tuner
    and the sample dump have no effect on the stream and are left out.  The
    recursive lock is not a value of the model: every function runs to its
    end, and the one place where the code works on the stream object after
    releasing the lock, the send of [out_write], takes what other threads
    did meanwhile as an argument. *)

From Stdlib Require Import ZArith List Bool String Lia.
Import ListNotations.
Local Open Scope Z_scope.

(** ** Machine integers *)

(** [int] and [uint32_t] are 32 bits wide on every Android ABI.  A signed
    result that does not fit wraps in two's complement, which is what the
    ARM multiply instruction of the target produces. *)
Definition to_uint32 (x : Z) : Z := x mod 2 ^ 32.
Definition to_int (x : Z) : Z := (x + 2 ^ 31) mod 2 ^ 32 - 2 ^ 31.

(** [popcount] of a 32-bit word. *)
Definition popcount (x : Z) : Z :=
  fold_left (fun acc i => if Z.testbit x (Z.of_nat i) then acc + 1 else acc)
            (seq 0 32) 0.

(** ** Constants *)

Definition CTRL_CHAN_RETRY_COUNT : nat := 3.

(** [<errno.h>] of Linux. *)
Definition EINTR : Z := 4.
Definition ENOMEM : Z := 12.

(** Modelled from the spec: [audio_a2dp_hw.h] is not part of the sources.
    The sentinel of a disconnected socket; [skt_connect] returns [-1] for a
    failed connection and the callers store that value in the handle. *)
Definition AUDIO_SKT_DISCONNECTED : Z := -1.

(** Modelled from the spec: the ack codes of [audio_a2dp_hw.h]; [0] is
    success, transient busy is a distinguished non-zero code and every other
    non-zero code is a generic failure. *)
Definition A2DP_CTRL_ACK_SUCCESS : Z := 0.
Definition A2DP_CTRL_ACK_FAILURE : Z := 1.
Definition A2DP_CTRL_ACK_INCALL_FAILURE : Z := 2.

(** Modelled from the spec: the command codes of [audio_a2dp_hw.h],
    enumerated from 1 in the order the control protocol lists them. *)
Definition A2DP_CTRL_CMD_CHECK_READY : Z := 1.
Definition A2DP_CTRL_CMD_START : Z := 2.
Definition A2DP_CTRL_CMD_STOP : Z := 3.
Definition A2DP_CTRL_CMD_SUSPEND : Z := 4.
Definition A2DP_CTRL_CMD_CHECK_STREAM_STARTED : Z := 5.

(** The two well-known endpoints. *)
Inductive skt_path := A2DP_CTRL_PATH | A2DP_DATA_PATH.

(** ** Local type definitions *)

Inductive a2dp_state_t :=
| AUDIO_A2DP_STATE_STARTING
| AUDIO_A2DP_STATE_STARTED
| AUDIO_A2DP_STATE_STOPPING
| AUDIO_A2DP_STATE_STOPPED
| AUDIO_A2DP_STATE_SUSPENDED
| AUDIO_A2DP_STATE_STANDBY.

Definition a2dp_state_eqb (a b : a2dp_state_t) : bool :=
  match a, b with
  | AUDIO_A2DP_STATE_STARTING, AUDIO_A2DP_STATE_STARTING
  | AUDIO_A2DP_STATE_STARTED, AUDIO_A2DP_STATE_STARTED
  | AUDIO_A2DP_STATE_STOPPING, AUDIO_A2DP_STATE_STOPPING
  | AUDIO_A2DP_STATE_STOPPED, AUDIO_A2DP_STATE_STOPPED
  | AUDIO_A2DP_STATE_SUSPENDED, AUDIO_A2DP_STATE_SUSPENDED
  | AUDIO_A2DP_STATE_STANDBY, AUDIO_A2DP_STATE_STANDBY => true
  | _, _ => false
  end.

Record a2dp_config := mk_config {
  rate : Z;
  channel_flags : Z;
  format : Z
}.

(** [struct a2dp_stream_out] without the capability table and the lock. *)
Record a2dp_stream_out := mk_out {
  ctrl_fd : Z;
  audio_fd : Z;
  buffer_sz : Z;
  state : a2dp_state_t;
  cfg : a2dp_config
}.

Definition set_ctrl_fd (fd : Z) (o : a2dp_stream_out) : a2dp_stream_out :=
  mk_out fd (audio_fd o) (buffer_sz o) (state o) (cfg o).
Definition set_audio_fd (fd : Z) (o : a2dp_stream_out) : a2dp_stream_out :=
  mk_out (ctrl_fd o) fd (buffer_sz o) (state o) (cfg o).
Definition set_state (s : a2dp_state_t) (o : a2dp_stream_out) : a2dp_stream_out :=
  mk_out (ctrl_fd o) (audio_fd o) (buffer_sz o) s (cfg o).

(** A pointer to the stream object: there is one output stream per device. *)
Inductive pointer := NULL | PTR_OUT.

(** ** System calls *)

(** What a system call hands back: its return value, [errno] as the code
    reads it after the call, and the byte left in the caller's one-byte
    buffer ([recv] into [ack]). *)
Record sysret := mk_sysret {
  sys_ret : Z;
  sys_errno : Z;
  sys_byte : Z
}.

Inductive event :=
| EvCalloc
| EvFree
| EvSocket
| EvConnect (fd : Z) (path : skt_path)
| EvSetsockopt (fd len : Z)
| EvSendCmd (fd cmd : Z)
| EvRecvAck (fd : Z)
| EvPoll (fd timeout_ms : Z)
| EvSendData (fd len : Z)
| EvShutdown (fd : Z)
| EvClose (fd : Z)
| EvUsleep (usec : Z).

(** The state every function runs on.  [m_out] is the object [out] points
    to; [m_stream_out] is the caller's [*stream_out] and [m_dev_output] is
    [a2dp_dev->output].  [m_oracle n] is the result of the [n]-th system call
    whose result is read; [m_trace] lists all calls, oldest first. *)
Record machine := mk_machine {
  m_out : a2dp_stream_out;
  m_allocated : bool;
  m_stream_out : pointer;
  m_dev_output : pointer;
  m_oracle : nat -> sysret;
  m_tick : nat;
  m_trace : list event
}.

Definition with_out (f : a2dp_stream_out -> a2dp_stream_out) (m : machine) : machine :=
  mk_machine (f (m_out m)) (m_allocated m) (m_stream_out m) (m_dev_output m)
             (m_oracle m) (m_tick m) (m_trace m).

(** The result the [k]-th coming system call will give. *)
Definition upcoming (m : machine) (k : nat) : sysret := m_oracle m (m_tick m + k)%nat.

(** ** The state monad *)

Definition M (A : Type) : Type := machine -> A * machine.

Definition ret {A} (a : A) : M A := fun m => (a, m).
Definition bind {A B} (c : M A) (k : A -> M B) : M B :=
  fun m => let (a, m') := c m in k a m'.

Declare Scope hal_scope.
Delimit Scope hal_scope with hal.
Notation "x <- c ;; k" := (bind c (fun x => k))
  (at level 61, c at next level, right associativity) : hal_scope.
Notation "c ;;; k" := (bind c (fun _ => k))
  (at level 61, right associativity) : hal_scope.
Local Open Scope hal_scope.

Definition get_out : M a2dp_stream_out := fun m => (m_out m, m).
Definition modify_out (f : a2dp_stream_out -> a2dp_stream_out) : M unit :=
  fun m => (tt, with_out f m).

(** A call whose result the code reads. *)
Definition sys (e : event) : M sysret :=
  fun m => (m_oracle m (m_tick m),
            mk_machine (m_out m) (m_allocated m) (m_stream_out m) (m_dev_output m)
                       (m_oracle m) (S (m_tick m)) (m_trace m ++ [e])).

(** A call whose result is dropped or only logged. *)
Definition emit (e : event) : M unit :=
  fun m => (tt,
            mk_machine (m_out m) (m_allocated m) (m_stream_out m) (m_dev_output m)
                       (m_oracle m) (m_tick m) (m_trace m ++ [e])).

(** ** Miscellaneous helper functions *)

(** [bytes*(1000000/(chan_count*2))/cfg.rate]: the product is an [int], the
    division by the [uint32_t] rate is unsigned, the result goes back to
    [int]. *)
Definition calc_audiotime (c : a2dp_config) (bytes : Z) : Z :=
  let chan_count := popcount (channel_flags c) in
  let per_byte := Z.quot 1000000 (to_int (chan_count * 2)) in
  let prod := to_int (bytes * per_byte) in
  to_int (to_uint32 prod / to_uint32 (rate c)).

(** ** bluedroid stack adaptation *)

Definition skt_connect (path : skt_path) : M Z :=
  o <- get_out ;;
  s <- sys EvSocket ;;
  let skt_fd := sys_ret s in
  c <- sys (EvConnect skt_fd path) ;;
  if sys_ret c <? 0 then
    emit (EvClose skt_fd) ;;; ret (-1)
  else
    emit (EvSetsockopt skt_fd (buffer_sz o)) ;;;
    ret skt_fd.

Definition skt_write (fd len : Z) : M Z :=
  p <- sys (EvPoll fd 500) ;;
  if sys_ret p =? 0 then ret 0
  else
    s <- sys (EvSendData fd len) ;;
    if sys_ret s =? -1 then ret (-1) else ret (sys_ret s).

Definition skt_disconnect (fd : Z) : M Z :=
  if negb (fd =? AUDIO_SKT_DISCONNECTED) then
    emit (EvShutdown fd) ;;; emit (EvClose fd) ;;; ret 0
  else ret 0.

(** ** Audio control path *)

(** The tail of [a2dp_command], once an ack byte has been received. *)
Definition decode_ack (ack : Z) : Z :=
  if ack =? A2DP_CTRL_ACK_INCALL_FAILURE then ack
  else if negb (ack =? A2DP_CTRL_ACK_SUCCESS) then -1
  else 0.

Definition ctrl_drop : M Z :=
  o <- get_out ;;
  skt_disconnect (ctrl_fd o) ;;;
  modify_out (set_ctrl_fd AUDIO_SKT_DISCONNECTED) ;;;
  ret (-1).

Definition a2dp_command (cmd : Z) : M Z :=
  o <- get_out ;;
  s <- sys (EvSendCmd (ctrl_fd o) cmd) ;;
  if sys_ret s =? -1 then ctrl_drop
  else
    r1 <- sys (EvRecvAck (ctrl_fd o)) ;;
    if sys_ret r1 <? 0 then
      if sys_errno r1 =? EINTR then
        r2 <- sys (EvRecvAck (ctrl_fd o)) ;;
        if sys_ret r2 <? 0 then ctrl_drop
        else ret (decode_ack (sys_byte r2))
      else ctrl_drop
    else ret (decode_ack (sys_byte r1)).

(** ** Audio data path *)

Definition start_audio_datapath : M Z :=
  o <- get_out ;;
  let oldstate := state o in
  if ctrl_fd o =? AUDIO_SKT_DISCONNECTED then ret (-1)
  else
    modify_out (set_state AUDIO_A2DP_STATE_STARTING) ;;;
    a2dp_status <- a2dp_command A2DP_CTRL_CMD_START ;;
    if a2dp_status <? 0 then
      modify_out (set_state oldstate) ;;; ret (-1)
    else if a2dp_status =? A2DP_CTRL_ACK_INCALL_FAILURE then
      modify_out (set_state oldstate) ;;; ret (-1)
    else
      o1 <- get_out ;;
      (* connect socket if not yet connected *)
      if audio_fd o1 =? AUDIO_SKT_DISCONNECTED then
        fd <- skt_connect A2DP_DATA_PATH ;;
        modify_out (set_audio_fd fd) ;;;
        if fd <? 0 then
          modify_out (set_state oldstate) ;;; ret (-1)
        else
          modify_out (set_state AUDIO_A2DP_STATE_STARTED) ;;; ret 0
      else ret 0.

Definition stop_audio_datapath : M Z :=
  o <- get_out ;;
  let oldstate := state o in
  if ctrl_fd o =? AUDIO_SKT_DISCONNECTED then ret (-1)
  else
    (* prevent any stray output writes from autostarting the stream *)
    modify_out (set_state AUDIO_A2DP_STATE_STOPPING) ;;;
    r <- a2dp_command A2DP_CTRL_CMD_STOP ;;
    if r <? 0 then
      modify_out (set_state oldstate) ;;; ret (-1)
    else
      modify_out (set_state AUDIO_A2DP_STATE_STOPPED) ;;;
      o1 <- get_out ;;
      skt_disconnect (audio_fd o1) ;;;
      modify_out (set_audio_fd AUDIO_SKT_DISCONNECTED) ;;;
      ret 0.

Definition suspend_audio_datapath (standby : bool) : M Z :=
  o <- get_out ;;
  if ctrl_fd o =? AUDIO_SKT_DISCONNECTED then ret (-1)
  else if a2dp_state_eqb (state o) AUDIO_A2DP_STATE_STOPPING then ret (-1)
  else
    r <- a2dp_command A2DP_CTRL_CMD_SUSPEND ;;
    if r <? 0 then ret (-1)
    else
      modify_out (set_state (if standby then AUDIO_A2DP_STATE_STANDBY
                             else AUDIO_A2DP_STATE_SUSPENDED)) ;;;
      o1 <- get_out ;;
      skt_disconnect (audio_fd o1) ;;;
      modify_out (set_audio_fd AUDIO_SKT_DISCONNECTED) ;;;
      ret 0.

Definition check_a2dp_ready : M Z :=
  r <- a2dp_command A2DP_CTRL_CMD_CHECK_READY ;;
  if r <? 0 then ret (-1) else ret 0.

Definition check_a2dp_stream_started : M Z :=
  r <- a2dp_command A2DP_CTRL_CMD_CHECK_STREAM_STARTED ;;
  if r <? 0 then ret (-1) else ret 0.

(** ** Audio output callbacks *)

(** [out_write] takes the lock, decides whether the payload may go out and
    releases the lock before it sends.  The two halves are split at that
    [pthread_mutex_unlock]: [out_write_locked] returns [Some r] where the C
    code returns [r] with the lock released, and [None] where it goes on to
    send. *)
Definition out_write_locked (bytes : Z) : M (option Z) :=
  o <- get_out ;;
  if a2dp_state_eqb (state o) AUDIO_A2DP_STATE_SUSPENDED then ret (Some (-1))
  else if a2dp_state_eqb (state o) AUDIO_A2DP_STATE_STOPPED
          || a2dp_state_eqb (state o) AUDIO_A2DP_STATE_STANDBY then
    (* only allow autostarting if we are in stopped or standby *)
    r <- start_audio_datapath ;;
    if r <? 0 then
      (* emulate time this write represents *)
      o1 <- get_out ;;
      let us_delay := calc_audiotime (cfg o1) (to_int bytes) in
      emit (EvUsleep (to_uint32 us_delay)) ;;;
      ret (Some (-1))
    else ret None
  else if negb (a2dp_state_eqb (state o) AUDIO_A2DP_STATE_STARTED) then
    ret (Some (-1))
  else ret None.

(** The part of [out_write] that runs without the lock.  [others] is what
    the threads that hold the lock meanwhile (the parameter path) do to the
    stream object while [skt_write] blocks; the identity when nothing else
    runs. *)
Definition out_write_unlocked (bytes : Z)
    (others : a2dp_stream_out -> a2dp_stream_out) : M Z :=
  o <- get_out ;;
  sent <- skt_write (audio_fd o) bytes ;;
  modify_out others ;;;
  if sent =? -1 then
    o1 <- get_out ;;
    skt_disconnect (audio_fd o1) ;;;
    modify_out (set_audio_fd AUDIO_SKT_DISCONNECTED) ;;;
    o2 <- get_out ;;
    (if negb (a2dp_state_eqb (state o2) AUDIO_A2DP_STATE_SUSPENDED)
     then modify_out (set_state AUDIO_A2DP_STATE_STOPPED)
     else ret tt) ;;;
    ret sent
  else ret sent.

Definition out_write (bytes : Z)
    (others : a2dp_stream_out -> a2dp_stream_out) : M Z :=
  r <- out_write_locked bytes ;;
  match r with
  | Some e => ret e
  | None => out_write_unlocked bytes others
  end.

Definition out_standby : M Z :=
  o <- get_out ;;
  (* Do nothing in SUSPENDED state. *)
  if negb (a2dp_state_eqb (state o) AUDIO_A2DP_STATE_SUSPENDED) then
    suspend_audio_datapath true
  else ret 0.

(** [out_set_parameters]; [closing] is the value stored under the key
    "closing" in [kvpairs], [None] when the key is absent. *)
Definition out_set_parameters (closing : option string) : M Z :=
  (match closing with
   | Some keyval =>
       if String.eqb keyval "true"
       then modify_out (set_state AUDIO_A2DP_STATE_STOPPING)
       else ret tt
   | None => ret tt
   end) ;;;
  match closing with
  | Some keyval =>
      if String.eqb keyval "true" then
        o <- get_out ;;
        if a2dp_state_eqb (state o) AUDIO_A2DP_STATE_STARTED then
          suspend_audio_datapath false
        else
          r <- check_a2dp_stream_started ;;
          if r =? 0 then suspend_audio_datapath false
          else modify_out (set_state AUDIO_A2DP_STATE_SUSPENDED) ;;; ret 0
      else
        o <- get_out ;;
        (if a2dp_state_eqb (state o) AUDIO_A2DP_STATE_SUSPENDED
         then modify_out (set_state AUDIO_A2DP_STATE_STANDBY)
         else ret tt) ;;;
        ret 0
  | None => ret 0
  end.

(** ** Stream open and close *)

Definition set_allocated (b : bool) : M unit :=
  fun m => (tt, mk_machine (m_out m) b (m_stream_out m) (m_dev_output m)
                           (m_oracle m) (m_tick m) (m_trace m)).
Definition set_stream_out (p : pointer) : M unit :=
  fun m => (tt, mk_machine (m_out m) (m_allocated m) p (m_dev_output m)
                           (m_oracle m) (m_tick m) (m_trace m)).
Definition set_dev_output (p : pointer) : M unit :=
  fun m => (tt, mk_machine (m_out m) (m_allocated m) (m_stream_out m) p
                           (m_oracle m) (m_tick m) (m_trace m)).

Section StreamDefaults.

(** The stream defaults of [audio_a2dp_hw.h], which is not part of the
    sources: they are parameters of the functions that read them. *)
Variable AUDIO_STREAM_DEFAULT_RATE : Z.
Variable AUDIO_STREAM_DEFAULT_FORMAT : Z.
Variable AUDIO_STREAM_DEFAULT_CHANNEL_FLAG : Z.
Variable AUDIO_STREAM_OUTPUT_BUFFER_SZ : Z.

Definition a2dp_stream_out_init : M unit :=
  modify_out (fun _ =>
    mk_out AUDIO_SKT_DISCONNECTED AUDIO_SKT_DISCONNECTED
           AUDIO_STREAM_OUTPUT_BUFFER_SZ AUDIO_A2DP_STATE_STOPPED
           (mk_config AUDIO_STREAM_DEFAULT_RATE
                      AUDIO_STREAM_DEFAULT_CHANNEL_FLAG
                      AUDIO_STREAM_DEFAULT_FORMAT)).

(** The retry loop of [adev_open_output_stream], [n] iterations left; the
    [break] is the branch that does not recurse. *)
Fixpoint ctrl_chan_retry (n : nat) : M unit :=
  match n with
  | O => ret tt
  | S n' =>
      fd <- skt_connect A2DP_CTRL_PATH ;;
      modify_out (set_ctrl_fd fd) ;;;
      if fd >? 0 then
        r <- check_a2dp_ready ;;
        if r =? 0 then ret tt
        else
          emit (EvUsleep 250000) ;;;
          o <- get_out ;;
          skt_disconnect (ctrl_fd o) ;;;
          emit (EvUsleep 250000) ;;;
          ctrl_chan_retry n'
      else
        emit (EvUsleep 250000) ;;;
        ctrl_chan_retry n'
  end.

Definition adev_open_output_stream : M Z :=
  c <- sys EvCalloc ;;
  if sys_ret c =? 0 then ret (- ENOMEM)
  else
    set_allocated true ;;;
    a2dp_stream_out_init ;;;
    set_stream_out PTR_OUT ;;;
    set_dev_output PTR_OUT ;;;
    ctrl_chan_retry CTRL_CHAN_RETRY_COUNT ;;;
    o <- get_out ;;
    if ctrl_fd o =? AUDIO_SKT_DISCONNECTED then
      (* err_open *)
      emit EvFree ;;;
      set_allocated false ;;;
      set_stream_out NULL ;;;
      set_dev_output NULL ;;;
      ret (-1)
    else
      emit (EvUsleep 250000) ;;;
      ret 0.

End StreamDefaults.

Definition adev_close_output_stream : M unit :=
  o <- get_out ;;
  (if a2dp_state_eqb (state o) AUDIO_A2DP_STATE_STARTED
      || a2dp_state_eqb (state o) AUDIO_A2DP_STATE_STOPPING
   then stop_audio_datapath ;;; ret tt
   else ret tt) ;;;
  o1 <- get_out ;;
  skt_disconnect (ctrl_fd o1) ;;;
  emit EvFree ;;;
  set_allocated false ;;;
  set_dev_output NULL.

(** ** Concrete streams and oracles *)

(** An oracle that plays a finite script and answers [0] afterwards. *)
Definition script (l : list sysret) : nat -> sysret :=
  fun n => nth n l (mk_sysret 0 0 0).

(** A call that returns [r]; a [recv] that delivers the ack byte [b]; a call
    that fails with [errno = e]. *)
Definition returns (r : Z) : sysret := mk_sysret r 0 0.
Definition delivers (b : Z) : sysret := mk_sysret 1 0 b.
Definition fails (e : Z) : sysret := mk_sysret (-1) e 0.

(** 44.1 kHz stereo 16-bit PCM, and the 8 kHz mono stream of the
    specification's timing example. *)
Definition stereo_44100 : a2dp_config := mk_config 44100 3 1.
Definition mono_8000 : a2dp_config := mk_config 8000 1 1.

Definition stream (ctrl audio : Z) (s : a2dp_state_t) : a2dp_stream_out :=
  mk_out ctrl audio 10240 s stereo_44100.

(** An open stream [o] about to make the calls answered by [l]. *)
Definition running (o : a2dp_stream_out) (l : list sysret) : machine :=
  mk_machine o true PTR_OUT PTR_OUT (script l) 0 [].

(** The device before [adev_open_output_stream]: no stream object yet. *)
Definition closed_device (l : list sysret) : machine :=
  mk_machine (mk_out 0 0 0 AUDIO_A2DP_STATE_STARTING (mk_config 0 0 0))
             false NULL NULL (script l) 0 [].

(** Number of ack waits ([recv] on the control socket) in a trace. *)
Definition is_recv (e : event) : bool :=
  match e with EvRecvAck _ => true | _ => false end.
Definition ack_waits (t : list event) : nat := List.length (filter is_recv t).

(** ** Scenarios and measures used by the statements *)

(** The machine on which [start_audio_datapath] and [stop_audio_datapath]
    run their control exchange: the transient state is already stored. *)
Definition entering (s : a2dp_state_t) (m : machine) : machine :=
  with_out (set_state s) m.

(** A stream in standby whose Start command is answered with the in-call
    ack. *)
Definition busy_start : machine :=
  running (stream 5 (-1) AUDIO_A2DP_STATE_STANDBY)
          [returns 1; delivers A2DP_CTRL_ACK_INCALL_FAILURE].

(** A stream in standby that still holds a connected data socket, whose
    Start command is acknowledged with success. *)
Definition standby_with_data_socket : machine :=
  running (stream 5 7 AUDIO_A2DP_STATE_STANDBY)
          [returns 1; delivers A2DP_CTRL_ACK_SUCCESS].

(** How a stream comes to be in standby with its data socket connected: a
    started stream is told "closing=true" while the stack reports that it
    is not streaming, then "closing=false".  The script goes on with the
    answers to the Start exchange and to the poll and send of the next
    write. *)
Definition closing_then_reopened : machine :=
  running (stream 5 7 AUDIO_A2DP_STATE_STARTED)
          [returns 1; delivers A2DP_CTRL_ACK_FAILURE;
           returns 1; delivers A2DP_CTRL_ACK_SUCCESS;
           returns 1; returns 64].
Definition after_closing : machine :=
  snd (out_set_parameters (Some "false"%string)
         (snd (out_set_parameters (Some "true"%string) closing_then_reopened))).

(** A stream that is already stopping, with a working control channel. *)
Definition already_stopping : machine :=
  running (stream 5 7 AUDIO_A2DP_STATE_STOPPING)
          [returns 1; delivers A2DP_CTRL_ACK_SUCCESS].

(** A started stream whose next command is answered with the in-call ack. *)
Definition busy_started : machine :=
  running (stream 5 7 AUDIO_A2DP_STATE_STARTED)
          [returns 1; delivers A2DP_CTRL_ACK_INCALL_FAILURE].

(** A suspended stream with both sockets connected. *)
Definition suspended_stream : machine :=
  running (stream 5 7 AUDIO_A2DP_STATE_SUSPENDED) [].

(** The playback time of [bytes] bytes of 16-bit PCM, in microseconds, as
    the integer expression of [calc_audiotime] read over the integers. *)
Definition playback_usec (c : a2dp_config) (bytes : Z) : Z :=
  bytes * (1000000 / (popcount (channel_flags c) * 2)) / rate c.

(** A stopped 44.1 kHz stereo stream whose Start is acknowledged while the
    data endpoint refuses the connection. *)
Definition data_endpoint_unreachable : machine :=
  running (stream 5 AUDIO_SKT_DISCONNECTED AUDIO_A2DP_STATE_STOPPED)
          [returns 1; delivers A2DP_CTRL_ACK_SUCCESS; returns 9; fails 111].

(** A started stream whose data socket accepts the poll and fails the send
    with [EPIPE], and one whose poll times out. *)
Definition send_fails : machine :=
  running (stream 5 7 AUDIO_A2DP_STATE_STARTED) [returns 1; fails 32].
Definition poll_times_out : machine :=
  running (stream 5 7 AUDIO_A2DP_STATE_STARTED) [returns 0].

(** What a concurrent "closing=true" does to the stream object while the
    write is blocked in [skt_write], when the stack is not streaming. *)
Definition suspended_meanwhile (o : a2dp_stream_out) : a2dp_stream_out :=
  set_state AUDIO_A2DP_STATE_SUSPENDED o.

(** Ack waits that one [a2dp_command] adds to the trace. *)
Definition ack_waits_during (cmd : Z) (m : machine) : nat :=
  ack_waits (m_trace (snd (a2dp_command cmd m))) - ack_waits (m_trace m).

(** A command whose ack wait is interrupted twice, and one whose ack wait
    fails once with [ECONNRESET]. *)
Definition interrupted_twice : machine :=
  running (stream 5 7 AUDIO_A2DP_STATE_STARTED)
          [returns 1; fails EINTR; fails EINTR; delivers A2DP_CTRL_ACK_SUCCESS].
Definition connection_reset : machine :=
  running (stream 5 7 AUDIO_A2DP_STATE_STARTED)
          [returns 1; fails 104; delivers A2DP_CTRL_ACK_SUCCESS].

(** A device whose control socket connects at each of the three attempts
    while the stack answers every readiness check with a failure ack. *)
Definition stack_never_ready : machine :=
  closed_device
    [returns 1;
     returns 5; returns 0; returns 1; delivers A2DP_CTRL_ACK_FAILURE;
     returns 5; returns 0; returns 1; delivers A2DP_CTRL_ACK_FAILURE;
     returns 5; returns 0; returns 1; delivers A2DP_CTRL_ACK_FAILURE].

(** ** Accessors, latency and the device's parameter entry *)

Definition set_rate (r : Z) (o : a2dp_stream_out) : a2dp_stream_out :=
  mk_out (ctrl_fd o) (audio_fd o) (buffer_sz o) (state o)
         (mk_config r (channel_flags (cfg o)) (format (cfg o))).

Definition out_get_sample_rate : M Z :=
  o <- get_out ;; ret (rate (cfg o)).

Section SampleRate.

(** The default rate of [audio_a2dp_hw.h], a parameter as in
    [a2dp_stream_out_init]. *)
Variable AUDIO_STREAM_DEFAULT_RATE : Z.

Definition out_set_sample_rate (r : Z) : M Z :=
  if negb (r =? AUDIO_STREAM_DEFAULT_RATE) then ret (-1)
  else modify_out (set_rate r) ;;; ret 0.

End SampleRate.

(** [out_get_latency].  [frame_size] is what [audio_stream_frame_size] of
    the platform's [system/audio.h] returns for the stream.  The quotient
    is computed in [size_t], 32 bits on the target, stored in the [int]
    [latency_us], and the result goes out as [uint32_t]. *)
Definition out_get_latency (frame_size : Z) : M Z :=
  o <- get_out ;;
  let latency_us :=
    to_int (to_uint32
              (to_uint32 (buffer_sz o * 1000) / frame_size / rate (cfg o) * 1000)) in
  ret (to_uint32 (Z.quot latency_us 1000 + 200)).

(** [adev_set_parameters]: the stream's [set_parameters] entry is
    [out_set_parameters], installed by [adev_open_output_stream]. *)
Definition adev_set_parameters (closing : option string) : M Z :=
  fun m =>
    match m_dev_output m with
    | NULL => ret 0 m
    | PTR_OUT => out_set_parameters closing m
    end.

(** ** Sequences of calls *)

(** The host framework drives an open stream by calling its entries one
    after the other. *)
Inductive call :=
| CallWrite (bytes : Z)
| CallStandby
| CallSetParameters (closing : option string).

Definition do_call (c : call) : M Z :=
  match c with
  | CallWrite bytes => out_write bytes (fun o => o)
  | CallStandby => out_standby
  | CallSetParameters closing => out_set_parameters closing
  end.

Fixpoint do_calls (cs : list call) : M (list Z) :=
  match cs with
  | [] => ret []
  | c :: cs' =>
      r <- do_call c ;;
      rs <- do_calls cs' ;;
      ret (r :: rs)
  end.

(** A call that does not ask the stream to close. *)
Definition keeps_open (c : call) : bool :=
  match c with
  | CallSetParameters (Some keyval) => negb (String.eqb keyval "true")
  | _ => true
  end.

(** ** Measures on machines and traces *)

(** System calls return [-1] to report an error, never less. *)
Definition posix (m : machine) : Prop :=
  forall n, -1 <= sys_ret (m_oracle m n).

(** The stream is in none of the two transient states, and it holds a data
    socket only while it is started. *)
Definition settled (o : a2dp_stream_out) : Prop :=
  state o <> AUDIO_A2DP_STATE_STARTING /\
  state o <> AUDIO_A2DP_STATE_STOPPING /\
  (state o <> AUDIO_A2DP_STATE_STARTED -> audio_fd o = AUDIO_SKT_DISCONNECTED).

(** The control channel is gone and the stream is not started. *)
Definition cut_off (o : a2dp_stream_out) : Prop :=
  ctrl_fd o = AUDIO_SKT_DISCONNECTED /\ state o <> AUDIO_A2DP_STATE_STARTED.

(** What a caller may see of a write on a stream that is cut off. *)
Definition write_refused (c : call) (r : Z) : Prop :=
  match c with
  | CallWrite _ => r = -1
  | _ => True
  end.

(** The command bytes sent on the control socket, oldest first. *)
Definition sent_cmds (t : list event) : list Z :=
  flat_map (fun e => match e with EvSendCmd _ cmd => [cmd] | _ => [] end) t.

(** The payload sends on the data socket, as (descriptor, length). *)
Definition sent_data (t : list event) : list (Z * Z) :=
  flat_map (fun e => match e with EvSendData fd len => [(fd, len)] | _ => [] end) t.

(** Connection attempts in a trace. *)
Definition connects (t : list event) : nat :=
  List.length (filter (fun e => match e with EvConnect _ _ => true | _ => false end) t).

(** Total time passed to [usleep] in a trace, in microseconds. *)
Definition slept (t : list event) : Z :=
  fold_right (fun e acc => match e with EvUsleep us => us + acc | _ => acc end) 0 t.

(** A computation leaves the observation [f] of the machine as it was. *)
Definition keeps {A B} (f : machine -> B) (c : M A) : Prop :=
  forall m, f (snd (c m)) = f m.

(** A stopped stream, as [adev_open_output_stream] leaves it, whose first
    write finds the stack ready and the data endpoint listening. *)
Definition first_write : machine :=
  running (stream 5 AUDIO_SKT_DISCONNECTED AUDIO_A2DP_STATE_STOPPED)
          [returns 1; delivers A2DP_CTRL_ACK_SUCCESS;
           returns 9; returns 0; returns 1; returns 4096].

(** A stopped stream whose control channel is gone. *)
Definition ctrl_lost : machine :=
  running (stream AUDIO_SKT_DISCONNECTED AUDIO_SKT_DISCONNECTED
                  AUDIO_A2DP_STATE_STOPPED) [].

(** A started stream whose command is answered with a failure ack, and one
    whose command cannot be sent. *)
Definition nack : machine :=
  running (stream 5 7 AUDIO_A2DP_STATE_STARTED)
          [returns 1; delivers A2DP_CTRL_ACK_FAILURE].
Definition send_cmd_fails : machine :=
  running (stream 5 7 AUDIO_A2DP_STATE_STARTED) [fails 32].

(** A started stream whose Suspend is acknowledged, followed by the
    answers to the Start exchange, the data connect and the send of the
    next write. *)
Definition suspend_then_write : machine :=
  running (stream 5 7 AUDIO_A2DP_STATE_STARTED)
          [returns 1; delivers A2DP_CTRL_ACK_SUCCESS;
           returns 1; delivers A2DP_CTRL_ACK_SUCCESS;
           returns 9; returns 0; returns 1; returns 4096].

(** A device whose control socket connects and whose stack is ready at the
    first attempt. *)
Definition stack_ready : machine :=
  closed_device [returns 1; returns 5; returns 0;
                 returns 1; delivers A2DP_CTRL_ACK_SUCCESS].

(** What no call on an open stream changes: the oracle, the stream's
    configuration and buffer size, the allocation and the two pointers. *)
Definition fixed (m : machine)
  : (nat -> sysret) * a2dp_config * Z * bool * pointer * pointer :=
  (m_oracle m, cfg (m_out m), buffer_sz (m_out m),
   m_allocated m, m_stream_out m, m_dev_output m).

(** Everything about the stream but its control handle, with the
    allocation and the two pointers. *)
Definition beside_ctrl (m : machine)
  : a2dp_stream_out * bool * pointer * pointer :=
  (set_ctrl_fd 0 (m_out m), m_allocated m, m_stream_out m, m_dev_output m).

(** A device that has no memory for the stream object, and one whose
    control endpoint refuses all three connections. *)
Definition no_memory : machine := closed_device [returns 0].
Definition ctrl_endpoint_down : machine :=
  closed_device [returns 1; returns 5; fails 111; returns 5; fails 111;
                 returns 5; fails 111].

(** A [recv] that finds the control socket closed by the peer: it returns
    [0] and stores nothing, so [ack] keeps the value [b] it happened to
    hold. *)
Definition closes (b : Z) : sysret := mk_sysret 0 0 b.

(** A started stream whose command is sent and whose ack wait then finds
    the control socket closed by the stack. *)
Definition peer_closed (b : Z) : machine :=
  running (stream 5 7 AUDIO_A2DP_STATE_STARTED) [returns 1; closes b].

(** ** Basic facts *)

Ltac run :=
  unfold bind, ret, get_out, modify_out, sys, emit, with_out,
         set_allocated, set_stream_out, set_dev_output;
  cbn [fst snd m_out m_allocated m_stream_out m_dev_output m_oracle m_tick
       m_trace].

Ltac split_if :=
  match goal with
  | |- context [if ?b then _ else _] => destruct b eqn:?
  end.

Lemma a2dp_state_eqb_eq (a b : a2dp_state_t) :
  a2dp_state_eqb a b = true <-> a = b.
Proof. destruct a, b; cbn; split; intro H; congruence. Qed.

Lemma a2dp_state_eqb_refl (a : a2dp_state_t) : a2dp_state_eqb a a = true.
Proof. now destruct a. Qed.

Lemma a2dp_state_eqb_neq (a b : a2dp_state_t) :
  a2dp_state_eqb a b = false <-> a <> b.
Proof. destruct a, b; cbn; split; intro H; congruence. Qed.

Lemma set_state_same (o : a2dp_stream_out) : set_state (state o) o = o.
Proof. now destruct o. Qed.

Lemma set_state_twice (s t : a2dp_state_t) (o : a2dp_stream_out) :
  set_state s (set_state t o) = set_state s o.
Proof. reflexivity. Qed.

Lemma with_out_id (m : machine) : with_out (fun o => o) m = m.
Proof. now destruct m. Qed.

Lemma decode_ack_range (ack : Z) :
  decode_ack ack = -1 \/ decode_ack ack = 0
  \/ decode_ack ack = A2DP_CTRL_ACK_INCALL_FAILURE.
Proof.
  unfold decode_ack.
  destruct (ack =? A2DP_CTRL_ACK_INCALL_FAILURE) eqn:E.
  - apply Z.eqb_eq in E. auto.
  - destruct (ack =? A2DP_CTRL_ACK_SUCCESS); cbn; auto.
Qed.

Lemma skt_disconnect_out (fd : Z) (m : machine) :
  fst (skt_disconnect fd m) = 0 /\ m_out (snd (skt_disconnect fd m)) = m_out m.
Proof. unfold skt_disconnect. split_if; run; auto. Qed.

(** The control exchange either drops the control handle and fails, or
    leaves the stream object alone and returns one of its three results. *)
Lemma a2dp_command_out (cmd : Z) (m : machine) :
  (fst (a2dp_command cmd m) = -1 /\
   m_out (snd (a2dp_command cmd m)) = set_ctrl_fd AUDIO_SKT_DISCONNECTED (m_out m))
  \/
  (m_out (snd (a2dp_command cmd m)) = m_out m /\
   (fst (a2dp_command cmd m) = -1 \/ fst (a2dp_command cmd m) = 0 \/
    fst (a2dp_command cmd m) = A2DP_CTRL_ACK_INCALL_FAILURE)).
Proof.
  unfold a2dp_command, ctrl_drop, skt_disconnect. run.
  repeat (split_if; run); auto using decode_ack_range.
Qed.

(** A result that is not negative means the stream object is untouched. *)
Lemma a2dp_command_nonneg (cmd : Z) (m : machine) :
  0 <= fst (a2dp_command cmd m) ->
  m_out (snd (a2dp_command cmd m)) = m_out m.
Proof.
  destruct (a2dp_command_out cmd m) as [[H _] | [H _]]; [lia | auto].
Qed.

(** The result of the exchange is the in-call code exactly when the ack
    byte that arrived, at the first wait or at the retry, is that code. *)
Lemma a2dp_command_incall (cmd : Z) (m : machine) :
  fst (a2dp_command cmd m) = A2DP_CTRL_ACK_INCALL_FAILURE <->
  sys_ret (upcoming m 0) <> -1 /\
  ((0 <= sys_ret (upcoming m 1) /\
    sys_byte (upcoming m 1) = A2DP_CTRL_ACK_INCALL_FAILURE) \/
   (sys_ret (upcoming m 1) < 0 /\ sys_errno (upcoming m 1) = EINTR /\
    0 <= sys_ret (upcoming m 2) /\
    sys_byte (upcoming m 2) = A2DP_CTRL_ACK_INCALL_FAILURE)).
Proof.
  unfold upcoming. rewrite Nat.add_0_r.
  replace (m_tick m + 1)%nat with (S (m_tick m)) by lia.
  replace (m_tick m + 2)%nat with (S (S (m_tick m))) by lia.
  unfold a2dp_command, ctrl_drop, skt_disconnect, decode_ack. run.
  repeat (split_if; run);
    repeat match goal with
           | H : (_ =? _) = true |- _ => apply Z.eqb_eq in H
           | H : (_ =? _) = false |- _ => apply Z.eqb_neq in H
           | H : (_ <? _) = true |- _ => apply Z.ltb_lt in H
           | H : (_ <? _) = false |- _ => apply Z.ltb_ge in H
           end;
    unfold A2DP_CTRL_ACK_INCALL_FAILURE, A2DP_CTRL_ACK_SUCCESS in *;
    split; intros; try lia;
    try (intuition lia).
Qed.

(** The exchange does not read the lifecycle state. *)
Lemma a2dp_command_state_blind (cmd : Z) (s : a2dp_state_t) (m : machine) :
  fst (a2dp_command cmd (with_out (set_state s) m)) = fst (a2dp_command cmd m).
Proof.
  unfold a2dp_command, ctrl_drop, skt_disconnect. run. cbn.
  repeat (split_if; run); reflexivity.
Qed.

(** ** The lifecycle state machine *)

Ltac cmd_cases cmd m r m1 H :=
  let E := fresh "E" in
  pose proof (a2dp_command_out cmd m) as H;
  destruct (a2dp_command cmd m) as [r m1] eqn:E;
  cbn [fst snd] in H.

(** [start_audio_datapath] resolves to [STARTED] or to the state before the
    call whenever the data socket is disconnected when it is called. *)
Lemma start_audio_datapath_resolves (m : machine) :
  audio_fd (m_out m) = AUDIO_SKT_DISCONNECTED ->
  state (m_out (snd (start_audio_datapath m))) = AUDIO_A2DP_STATE_STARTED \/
  state (m_out (snd (start_audio_datapath m))) = state (m_out m).
Proof.
  intros Ha. unfold start_audio_datapath, skt_connect. run.
  split_if; run; auto.
  cmd_cases A2DP_CTRL_CMD_START (entering AUDIO_A2DP_STATE_STARTING m) r m1 H.
  unfold entering, with_out in *. rewrite E.
  destruct H as [[-> H] | [H _]]; cbn in H; run.
  - cbn. auto.
  - repeat (split_if; run); rewrite ?H; cbn; auto.
    rewrite H in Heqb2. cbn in Heqb2.
    rewrite Ha in Heqb2. discriminate.
Qed.

(** C4: whatever the state before the call, when the Start exchange of
    [start_audio_datapath] is answered with the in-call ack, the call
    returns failure and the stream object, its state included, is what it
    was before the call. *)
Theorem start_audio_datapath_incall_keeps_state (m : machine) :
  ctrl_fd (m_out m) <> AUDIO_SKT_DISCONNECTED ->
  fst (a2dp_command A2DP_CTRL_CMD_START
         (entering AUDIO_A2DP_STATE_STARTING m)) = A2DP_CTRL_ACK_INCALL_FAILURE ->
  fst (start_audio_datapath m) = -1 /\
  m_out (snd (start_audio_datapath m)) = m_out m /\
  state (m_out (snd (start_audio_datapath m))) = state (m_out m).
Proof.
  intros Hc Hack.
  assert (Hout : m_out (snd (a2dp_command A2DP_CTRL_CMD_START
                   (entering AUDIO_A2DP_STATE_STARTING m)))
                 = set_state AUDIO_A2DP_STATE_STARTING (m_out m)).
  { apply a2dp_command_nonneg. rewrite Hack. cbv. discriminate. }
  unfold start_audio_datapath. run.
  apply Z.eqb_neq in Hc. rewrite Hc.
  unfold entering, with_out in *.
  destruct (a2dp_command _ _) as [r m1]. cbn [fst snd] in *. subst r.
  cbn. rewrite Hout. rewrite set_state_twice, set_state_same. auto.
Qed.

(** C4 at [busy_start]: the stream stays in standby. *)
Lemma start_audio_datapath_incall_keeps_state_witness :
  fst (start_audio_datapath busy_start) = -1 /\
  m_out (snd (start_audio_datapath busy_start)) = m_out busy_start /\
  state (m_out (snd (start_audio_datapath busy_start)))
  = AUDIO_A2DP_STATE_STANDBY.
Proof.
  destruct (start_audio_datapath_incall_keeps_state busy_start)
    as (H1 & H2 & H3).
  - cbv. discriminate.
  - reflexivity.
  - repeat split; assumption.
Defined.

(** C1 (fails on the code): [start_audio_datapath] stores [STARTED] only in
    the branch that connects the data socket.  Called in standby with the
    data socket still connected and the Start command acknowledged, it
    returns success and leaves the state at [STARTING], which is neither
    [STARTED] nor the state before the call. *)
Theorem start_audio_datapath_left_starting :
  state (m_out standby_with_data_socket) = AUDIO_A2DP_STATE_STANDBY /\
  fst (start_audio_datapath standby_with_data_socket) = 0 /\
  state (m_out (snd (start_audio_datapath standby_with_data_socket)))
  = AUDIO_A2DP_STATE_STARTING /\
  ~ (state (m_out (snd (start_audio_datapath standby_with_data_socket)))
     = AUDIO_A2DP_STATE_STARTED \/
     state (m_out (snd (start_audio_datapath standby_with_data_socket)))
     = state (m_out standby_with_data_socket)).
Proof. repeat split. intros [H | H]; revert H; cbv; discriminate. Qed.

(** The same for every stream: a connected data socket and an acknowledged
    Start leave the state at [STARTING]. *)
Lemma start_audio_datapath_starting_when_connected (m : machine) :
  ctrl_fd (m_out m) <> AUDIO_SKT_DISCONNECTED ->
  audio_fd (m_out m) <> AUDIO_SKT_DISCONNECTED ->
  fst (a2dp_command A2DP_CTRL_CMD_START
         (entering AUDIO_A2DP_STATE_STARTING m)) = 0 ->
  fst (start_audio_datapath m) = 0 /\
  state (m_out (snd (start_audio_datapath m))) = AUDIO_A2DP_STATE_STARTING.
Proof.
  intros Hc Ha Hack.
  assert (Hout : m_out (snd (a2dp_command A2DP_CTRL_CMD_START
                   (entering AUDIO_A2DP_STATE_STARTING m)))
                 = set_state AUDIO_A2DP_STATE_STARTING (m_out m)).
  { apply a2dp_command_nonneg. rewrite Hack. lia. }
  unfold start_audio_datapath. run.
  apply Z.eqb_neq in Hc. rewrite Hc.
  unfold entering, with_out in *.
  destruct (a2dp_command _ _) as [r m1]. cbn [fst snd] in *. subst r.
  cbn. rewrite Hout. cbn. apply Z.eqb_neq in Ha. rewrite Ha.
  cbn. rewrite Hout. auto.
Qed.

(** The stream of [after_closing] is in standby with its data socket
    connected.  The next write autostarts, sends its 64 bytes and leaves the
    state at [STARTING]; the write after that is refused. *)
Example starting_is_reachable :
  m_out after_closing = stream 5 7 AUDIO_A2DP_STATE_STANDBY /\
  fst (out_write 64 (fun o => o) after_closing) = 64 /\
  m_out (snd (out_write 64 (fun o => o) after_closing))
  = stream 5 7 AUDIO_A2DP_STATE_STARTING /\
  fst (out_write 64 (fun o => o)
         (snd (out_write 64 (fun o => o) after_closing))) = -1.
Proof. repeat split. Qed.




(** [adev_close_output_stream] relies on it: a stream that is closed while
    [STOPPING] is stopped through [stop_audio_datapath]. *)
Example adev_close_output_stream_stops_from_stopping :
  m_trace (snd (adev_close_output_stream already_stopping))
  = [EvSendCmd 5 A2DP_CTRL_CMD_STOP; EvRecvAck 5; EvShutdown 7; EvClose 7;
     EvShutdown 5; EvClose 5; EvFree] /\
  state (m_out (snd (adev_close_output_stream already_stopping)))
  = AUDIO_A2DP_STATE_STOPPED.
Proof. repeat split. Qed.

(** C3 (fails on the code): only [start_audio_datapath] tells the in-call
    ack from success.  [suspend_audio_datapath] and [stop_audio_datapath]
    test the exchange for a negative result, the in-call result is positive,
    and they go on as after a success: from [STARTED] the state becomes
    [SUSPENDED], [STANDBY] or [STOPPED] and the data socket is dropped. *)
Theorem suspend_audio_datapath_incall_changes_state :
  state (m_out busy_started) = AUDIO_A2DP_STATE_STARTED /\
  fst (a2dp_command A2DP_CTRL_CMD_SUSPEND busy_started)
  = A2DP_CTRL_ACK_INCALL_FAILURE /\
  fst (suspend_audio_datapath false busy_started) = 0 /\
  m_out (snd (suspend_audio_datapath false busy_started))
  = stream 5 AUDIO_SKT_DISCONNECTED AUDIO_A2DP_STATE_SUSPENDED /\
  fst (suspend_audio_datapath true busy_started) = 0 /\
  m_out (snd (suspend_audio_datapath true busy_started))
  = stream 5 AUDIO_SKT_DISCONNECTED AUDIO_A2DP_STATE_STANDBY /\
  fst (stop_audio_datapath busy_started) = 0 /\
  m_out (snd (stop_audio_datapath busy_started))
  = stream 5 AUDIO_SKT_DISCONNECTED AUDIO_A2DP_STATE_STOPPED /\
  state (m_out (snd (suspend_audio_datapath false busy_started)))
  <> state (m_out busy_started).
Proof. repeat split. cbv. discriminate. Qed.

(** The same for every stream that may suspend: an in-call ack moves the
    state as a success does. *)
Lemma suspend_audio_datapath_incall_advances (standby : bool) (m : machine) :
  ctrl_fd (m_out m) <> AUDIO_SKT_DISCONNECTED ->
  state (m_out m) <> AUDIO_A2DP_STATE_STOPPING ->
  fst (a2dp_command A2DP_CTRL_CMD_SUSPEND m) = A2DP_CTRL_ACK_INCALL_FAILURE ->
  fst (suspend_audio_datapath standby m) = 0 /\
  state (m_out (snd (suspend_audio_datapath standby m)))
  = (if standby then AUDIO_A2DP_STATE_STANDBY else AUDIO_A2DP_STATE_SUSPENDED) /\
  audio_fd (m_out (snd (suspend_audio_datapath standby m)))
  = AUDIO_SKT_DISCONNECTED.
Proof.
  intros Hc Hs Hack.
  unfold suspend_audio_datapath. run.
  apply Z.eqb_neq in Hc. rewrite Hc.
  apply a2dp_state_eqb_neq in Hs. rewrite Hs.
  destruct (a2dp_command _ _) as [r m1]. cbn [fst snd] in *. subst r.
  cbn [Z.ltb Z.compare A2DP_CTRL_ACK_INCALL_FAILURE]. run.
  match goal with
  | |- context [skt_disconnect ?fd ?mm] =>
      destruct (skt_disconnect_out fd mm) as [_ Hd];
      destruct (skt_disconnect fd mm) as [z m2]
  end.
  cbn [fst snd] in *. rewrite Hd. cbn. auto.
Qed.

(** A failed Suspend exchange leaves the state alone. *)
Lemma suspend_audio_datapath_failure_keeps_state (standby : bool) (m : machine) :
  fst (suspend_audio_datapath standby m) <> 0 ->
  fst (suspend_audio_datapath standby m) = -1 /\
  state (m_out (snd (suspend_audio_datapath standby m))) = state (m_out m).
Proof.
  unfold suspend_audio_datapath. run.
  destruct (ctrl_fd (m_out m) =? AUDIO_SKT_DISCONNECTED); run; auto.
  destruct (a2dp_state_eqb (state (m_out m)) AUDIO_A2DP_STATE_STOPPING);
    run; auto.
  cmd_cases A2DP_CTRL_CMD_SUSPEND m r m1 H.
  destruct (r <? 0) eqn:Hneg; run.
  - intros _. destruct H as [[_ ->] | [-> _]]; cbn; auto.
  - match goal with
    | |- context [skt_disconnect ?fd ?mm] =>
        destruct (skt_disconnect fd mm) as [z m2]
    end.
    cbn. congruence.
Qed.

(** ** The write path and standby *)

(** C5: a write to a suspended stream returns [-1] and changes nothing:
    the stream object, the oracle position and the trace of system calls
    are those before the call, for every payload size. *)
Theorem out_write_suspended_rejects
    (bytes : Z) (others : a2dp_stream_out -> a2dp_stream_out) (m : machine) :
  state (m_out m) = AUDIO_A2DP_STATE_SUSPENDED ->
  out_write bytes others m = (-1, m).
Proof.
  intros Hs. unfold out_write, out_write_locked. run.
  rewrite Hs. reflexivity.
Qed.

(** C5 at a suspended stream and a payload of 4096 bytes. *)
Lemma out_write_suspended_rejects_witness :
  out_write 4096 (fun o => o) suspended_stream = (-1, suspended_stream) /\
  m_trace (snd (out_write 4096 (fun o => o) suspended_stream)) = [].
Proof.
  rewrite (out_write_suspended_rejects 4096 (fun o => o) suspended_stream).
  - split; reflexivity.
  - reflexivity.
Defined.

(** C10: [out_standby] on a suspended stream returns [0] and changes
    nothing: no command is sent, no socket is touched and the state stays
    [SUSPENDED]. *)
Theorem out_standby_suspended_is_noop (m : machine) :
  state (m_out m) = AUDIO_A2DP_STATE_SUSPENDED ->
  out_standby m = (0, m).
Proof.
  intros Hs. unfold out_standby. run.
  rewrite Hs. reflexivity.
Qed.

(** C10 at a suspended stream. *)
Lemma out_standby_suspended_is_noop_witness :
  out_standby suspended_stream = (0, suspended_stream) /\
  state (m_out (snd (out_standby suspended_stream)))
  = AUDIO_A2DP_STATE_SUSPENDED /\
  m_trace (snd (out_standby suspended_stream)) = [].
Proof.
  rewrite (out_standby_suspended_is_noop suspended_stream).
  - repeat split.
  - reflexivity.
Defined.

(** In every other state [out_standby] is [suspend_audio_datapath] towards
    standby. *)
Lemma out_standby_not_suspended (m : machine) :
  state (m_out m) <> AUDIO_A2DP_STATE_SUSPENDED ->
  out_standby m = suspend_audio_datapath true m.
Proof.
  intros Hs. unfold out_standby. run.
  apply a2dp_state_eqb_neq in Hs. rewrite Hs. reflexivity.
Qed.

(** ** The emulated write time *)

Lemma to_int_small (x : Z) : - 2 ^ 31 <= x < 2 ^ 31 -> to_int x = x.
Proof. intros H. unfold to_int. rewrite Z.mod_small; lia. Qed.

Lemma to_uint32_small (x : Z) : 0 <= x < 2 ^ 32 -> to_uint32 x = x.
Proof. intros H. unfold to_uint32. now rewrite Z.mod_small. Qed.

(** Reading an [int] as [uint32_t] forgets the wrap of [to_int]. *)
Lemma to_uint32_to_int (x : Z) : to_uint32 (to_int x) = to_uint32 x.
Proof.
  unfold to_uint32, to_int.
  rewrite Zminus_mod_idemp_l. f_equal. lia.
Qed.

Lemma count_bits_bounds (x : Z) (l : list nat) (acc : Z) :
  acc <= fold_left (fun a i => if Z.testbit x (Z.of_nat i) then a + 1 else a) l acc
      <= acc + Z.of_nat (List.length l).
Proof.
  revert acc. induction l as [| i l IH]; intros acc; cbn [fold_left List.length].
  - lia.
  - destruct (Z.testbit x (Z.of_nat i));
      [specialize (IH (acc + 1)) | specialize (IH acc)]; lia.
Qed.

Lemma popcount_bounds (x : Z) : 0 <= popcount x <= 32.
Proof.
  unfold popcount.
  pose proof (count_bits_bounds x (seq 0 32) 0) as H.
  rewrite length_seq in H. lia.
Qed.

(** While the product fits in 32 bits, [calc_audiotime] hands [usleep] the
    playback time. *)
Lemma calc_audiotime_exact (c : a2dp_config) (bytes : Z) :
  0 < popcount (channel_flags c) ->
  0 < rate c < 2 ^ 32 ->
  0 <= bytes ->
  bytes * (1000000 / (popcount (channel_flags c) * 2)) < 2 ^ 32 ->
  to_uint32 (calc_audiotime c bytes) = playback_usec c bytes.
Proof.
  intros Hch Hrate Hb Hfit.
  pose proof (popcount_bounds (channel_flags c)) as Hpc.
  unfold calc_audiotime, playback_usec.
  set (n := popcount (channel_flags c)) in *.
  rewrite (to_int_small (n * 2)) by lia.
  rewrite Z.quot_div_nonneg by lia.
  set (q := 1000000 / (n * 2)) in *.
  assert (0 <= q) by (apply Z.div_pos; lia).
  rewrite !to_uint32_to_int.
  rewrite (to_uint32_small (bytes * q)) by nia.
  rewrite (to_uint32_small (rate c)) by lia.
  apply to_uint32_small. split.
  - apply Z.div_pos; nia.
  - apply Z.le_lt_trans with (bytes * q); [| lia].
    apply Z.div_le_upper_bound; nia.
Qed.

(** The timing example of the specification: 512 samples of 16-bit mono at
    8 kHz are 1024 bytes and 64 ms. *)
Example calc_audiotime_512_samples_mono_8000 :
  calc_audiotime mono_8000 1024 = 64000 /\ playback_usec mono_8000 1024 = 64000.
Proof. split; reflexivity. Qed.

Lemma skt_connect_out (path : skt_path) (m : machine) :
  m_out (snd (skt_connect path m)) = m_out m.
Proof. unfold skt_connect. run. split_if; run; reflexivity. Qed.

(** [start_audio_datapath] never writes the configuration. *)
Lemma start_audio_datapath_cfg (m : machine) :
  cfg (m_out (snd (start_audio_datapath m))) = cfg (m_out m).
Proof.
  unfold start_audio_datapath. run.
  split_if; run; auto.
  cmd_cases A2DP_CTRL_CMD_START (entering AUDIO_A2DP_STATE_STARTING m) r m1 H.
  unfold entering, with_out in *. rewrite E.
  assert (Hc : cfg (m_out m1) = cfg (m_out m))
    by (destruct H as [[_ ->] | [-> _]]; reflexivity).
  repeat (split_if; run); auto.
  all: pose proof (skt_connect_out A2DP_DATA_PATH m1) as Hk;
    destruct (skt_connect A2DP_DATA_PATH m1) as [fd m2]; cbn [fst snd] in *;
    repeat (split_if; run); rewrite Hk; cbn; auto.
Qed.

(** A write that fails to autostart sleeps for [calc_audiotime] of the
    payload, after the start attempt and before it returns [-1]. *)
Lemma out_write_emulates_write_time
    (bytes : Z) (others : a2dp_stream_out -> a2dp_stream_out) (m : machine) :
  state (m_out m) = AUDIO_A2DP_STATE_STOPPED \/
  state (m_out m) = AUDIO_A2DP_STATE_STANDBY ->
  fst (start_audio_datapath m) < 0 ->
  fst (out_write bytes others m) = -1 /\
  m_out (snd (out_write bytes others m)) = m_out (snd (start_audio_datapath m)) /\
  m_trace (snd (out_write bytes others m))
  = m_trace (snd (start_audio_datapath m))
    ++ [EvUsleep (to_uint32 (calc_audiotime (cfg (m_out m)) (to_int bytes)))].
Proof.
  intros Hs Hfail.
  pose proof (start_audio_datapath_cfg m) as Hcfg.
  apply Z.ltb_lt in Hfail.
  unfold out_write, out_write_locked. run.
  destruct Hs as [-> | ->]; cbn [a2dp_state_eqb orb];
    destruct (start_audio_datapath m) as [r m1]; cbn [fst snd] in *;
    rewrite Hfail; run; rewrite Hcfg; auto.
Qed.

(** X11: in the range where nothing wraps, that sleep is the playback time
    of the payload: a write that fails to autostart returns [-1] after a
    [usleep] of [bytes*(1000000/(channels*2))/rate] microseconds. *)
Lemma out_write_blocks_for_playback_time
    (bytes : Z) (others : a2dp_stream_out -> a2dp_stream_out) (m : machine) :
  state (m_out m) = AUDIO_A2DP_STATE_STOPPED \/
  state (m_out m) = AUDIO_A2DP_STATE_STANDBY ->
  fst (start_audio_datapath m) < 0 ->
  0 < popcount (channel_flags (cfg (m_out m))) ->
  0 < rate (cfg (m_out m)) < 2 ^ 32 ->
  0 <= bytes < 2 ^ 31 ->
  bytes * (1000000 / (popcount (channel_flags (cfg (m_out m))) * 2)) < 2 ^ 32 ->
  fst (out_write bytes others m) = -1 /\
  m_trace (snd (out_write bytes others m))
  = m_trace (snd (start_audio_datapath m))
    ++ [EvUsleep (playback_usec (cfg (m_out m)) bytes)].
Proof.
  intros Hs Hfail Hch Hrate Hb Hfit.
  destruct (out_write_emulates_write_time bytes others m Hs Hfail)
    as (Hr & _ & Ht).
  split; [exact Hr |].
  rewrite Ht, to_int_small by lia.
  now rewrite calc_audiotime_exact by lia.
Qed.

(** C6 (fails on the code): the product [bytes*(1000000/(chan_count*2))] of
    [calc_audiotime] is a 32-bit [int].  For a payload of 17180 bytes on a
    stereo stream it is 4295000000, which wraps to 32704, and the write
    sleeps for 0 microseconds before it returns failure, where the payload
    stands for 97392 microseconds of audio. *)
Theorem out_write_emulated_time_wraps :
  state (m_out data_endpoint_unreachable) = AUDIO_A2DP_STATE_STOPPED /\
  fst (start_audio_datapath data_endpoint_unreachable) = -1 /\
  fst (out_write 17180 (fun o => o) data_endpoint_unreachable) = -1 /\
  m_trace (snd (out_write 17180 (fun o => o) data_endpoint_unreachable))
  = [EvSendCmd 5 A2DP_CTRL_CMD_START; EvRecvAck 5;
     EvSocket; EvConnect 9 A2DP_DATA_PATH; EvClose 9; EvUsleep 0] /\
  calc_audiotime stereo_44100 17180 = 0 /\
  playback_usec stereo_44100 17180 = 97392 /\
  to_int (17180 * (1000000 / (2 * 2))) = 32704.
Proof. repeat split. Qed.

(** ** Transmit errors *)

(** C7: once the locked half of [out_write] has let the payload through,
    leaving the machine [m1], a failed [send] on the data socket makes the
    write return [-1]; the data socket found after the send is shut down
    and closed (unless its handle is already the disconnected sentinel) and
    the handle is marked disconnected; the state becomes [STOPPED], unless
    the state found after the send is [SUSPENDED], which is kept.  A poll
    timeout makes the write return [0] after the poll alone and writes
    nothing to the stream object. *)
Theorem out_write_transmit_error
    (bytes : Z) (others : a2dp_stream_out -> a2dp_stream_out)
    (m m1 : machine) :
  out_write_locked bytes m = (None, m1) ->
  (sys_ret (upcoming m1 0) <> 0 -> sys_ret (upcoming m1 1) = -1 ->
   fst (out_write bytes others m) = -1 /\
   audio_fd (m_out (snd (out_write bytes others m))) = AUDIO_SKT_DISCONNECTED /\
   state (m_out (snd (out_write bytes others m)))
   = (if a2dp_state_eqb (state (others (m_out m1))) AUDIO_A2DP_STATE_SUSPENDED
      then AUDIO_A2DP_STATE_SUSPENDED else AUDIO_A2DP_STATE_STOPPED) /\
   m_trace (snd (out_write bytes others m))
   = m_trace m1
     ++ [EvPoll (audio_fd (m_out m1)) 500;
         EvSendData (audio_fd (m_out m1)) bytes]
     ++ (if audio_fd (others (m_out m1)) =? AUDIO_SKT_DISCONNECTED then []
         else [EvShutdown (audio_fd (others (m_out m1)));
               EvClose (audio_fd (others (m_out m1)))]))
  /\
  (sys_ret (upcoming m1 0) = 0 ->
   fst (out_write bytes others m) = 0 /\
   m_out (snd (out_write bytes others m)) = others (m_out m1) /\
   m_trace (snd (out_write bytes others m))
   = m_trace m1 ++ [EvPoll (audio_fd (m_out m1)) 500]).
Proof.
  intros Hlocked.
  assert (Heq : out_write bytes others m = out_write_unlocked bytes others m1)
    by (unfold out_write, bind; now rewrite Hlocked).
  rewrite Heq. clear Heq Hlocked.
  unfold upcoming. rewrite Nat.add_0_r.
  replace (m_tick m1 + 1)%nat with (S (m_tick m1)) by lia.
  unfold out_write_unlocked, skt_write, skt_disconnect. run. split.
  - intros Hpoll Hsend.
    apply Z.eqb_neq in Hpoll. rewrite Hpoll. run.
    rewrite Hsend. cbn [Z.eqb Pos.eqb]. run.
    destruct (audio_fd (others (m_out m1)) =? AUDIO_SKT_DISCONNECTED);
      cbn [negb]; run; cbn [state set_audio_fd];
      destruct (a2dp_state_eqb (state (others (m_out m1)))
                  AUDIO_A2DP_STATE_SUSPENDED) eqn:Hs;
      cbn [negb]; run; cbn [fst snd m_out m_trace state audio_fd set_state
                            set_audio_fd];
      repeat rewrite <- app_assoc; cbn [app];
      try (apply a2dp_state_eqb_eq in Hs); auto.
  - intros Hpoll. rewrite Hpoll. cbn. auto.
Qed.

(** C7 at a failed send with nothing else running, at a failed send while
    the stream is suspended meanwhile, and at a poll timeout. *)
Lemma out_write_transmit_error_witness :
  (fst (out_write 512 (fun o => o) send_fails) = -1 /\
   audio_fd (m_out (snd (out_write 512 (fun o => o) send_fails)))
   = AUDIO_SKT_DISCONNECTED /\
   state (m_out (snd (out_write 512 (fun o => o) send_fails)))
   = AUDIO_A2DP_STATE_STOPPED /\
   m_trace (snd (out_write 512 (fun o => o) send_fails))
   = [] ++ [EvPoll 7 500; EvSendData 7 512] ++ [EvShutdown 7; EvClose 7]) /\
  (fst (out_write 512 suspended_meanwhile send_fails) = -1 /\
   audio_fd (m_out (snd (out_write 512 suspended_meanwhile send_fails)))
   = AUDIO_SKT_DISCONNECTED /\
   state (m_out (snd (out_write 512 suspended_meanwhile send_fails)))
   = AUDIO_A2DP_STATE_SUSPENDED /\
   m_trace (snd (out_write 512 suspended_meanwhile send_fails))
   = [] ++ [EvPoll 7 500; EvSendData 7 512] ++ [EvShutdown 7; EvClose 7]) /\
  (fst (out_write 512 (fun o => o) poll_times_out) = 0 /\
   m_out (snd (out_write 512 (fun o => o) poll_times_out))
   = m_out poll_times_out /\
   m_trace (snd (out_write 512 (fun o => o) poll_times_out))
   = [] ++ [EvPoll 7 500]).
Proof.
  split; [| split].
  - apply (out_write_transmit_error 512 (fun o => o) send_fails send_fails).
    + reflexivity.
    + cbv. discriminate.
    + reflexivity.
  - apply (out_write_transmit_error 512 suspended_meanwhile send_fails send_fails).
    + reflexivity.
    + cbv. discriminate.
    + reflexivity.
  - apply (out_write_transmit_error 512 (fun o => o)
             poll_times_out poll_times_out).
    + reflexivity.
    + reflexivity.
Defined.

(** ** The control exchange *)

Lemma ack_waits_app (t u : list event) :
  ack_waits (t ++ u) = (ack_waits t + ack_waits u)%nat.
Proof. unfold ack_waits. now rewrite filter_app, length_app. Qed.

(** The retry of the ack wait, for waits that fail with a negative
    result: for every command, [a2dp_command] waits for the ack at most
    twice; it waits a second time exactly when the command was sent and the
    first wait failed with [EINTR]; and when the first wait fails otherwise,
    or the second wait fails, it returns [-1] with the control handle
    disconnected. *)
Theorem a2dp_command_retries_once (cmd : Z) (m : machine) :
  (ack_waits_during cmd m <= 2)%nat /\
  (ack_waits_during cmd m = 2%nat <->
   sys_ret (upcoming m 0) <> -1 /\
   sys_ret (upcoming m 1) < 0 /\ sys_errno (upcoming m 1) = EINTR) /\
  (sys_ret (upcoming m 0) <> -1 ->
   sys_ret (upcoming m 1) < 0 ->
   sys_errno (upcoming m 1) <> EINTR \/ sys_ret (upcoming m 2) < 0 ->
   fst (a2dp_command cmd m) = -1 /\
   ctrl_fd (m_out (snd (a2dp_command cmd m))) = AUDIO_SKT_DISCONNECTED).
Proof.
  unfold ack_waits_during, upcoming. rewrite Nat.add_0_r.
  replace (m_tick m + 1)%nat with (S (m_tick m)) by lia.
  replace (m_tick m + 2)%nat with (S (S (m_tick m))) by lia.
  unfold a2dp_command, ctrl_drop, skt_disconnect. run.
  repeat (split_if; run);
    repeat rewrite ack_waits_app; cbn [ack_waits filter is_recv List.length];
    repeat match goal with
           | H : (_ =? _) = true |- _ => apply Z.eqb_eq in H
           | H : (_ =? _) = false |- _ => apply Z.eqb_neq in H
           | H : (_ <? _) = true |- _ => apply Z.ltb_lt in H
           | H : (_ <? _) = false |- _ => apply Z.ltb_ge in H
           end;
    cbn [ctrl_fd set_ctrl_fd];
    (split; [lia | split; [split; intros; try lia; intuition lia |]]);
    intros; try (intuition lia); auto.
Qed.

(** At an ack wait interrupted twice (two waits) and at an ack wait that
    fails with another error (no retry); both drop the control handle. *)
Lemma a2dp_command_retries_once_witness :
  (ack_waits_during A2DP_CTRL_CMD_START interrupted_twice = 2%nat /\
   fst (a2dp_command A2DP_CTRL_CMD_START interrupted_twice) = -1 /\
   ctrl_fd (m_out (snd (a2dp_command A2DP_CTRL_CMD_START interrupted_twice)))
   = AUDIO_SKT_DISCONNECTED) /\
  (ack_waits_during A2DP_CTRL_CMD_START connection_reset <> 2%nat /\
   fst (a2dp_command A2DP_CTRL_CMD_START connection_reset) = -1 /\
   ctrl_fd (m_out (snd (a2dp_command A2DP_CTRL_CMD_START connection_reset)))
   = AUDIO_SKT_DISCONNECTED).
Proof.
  destruct (a2dp_command_retries_once A2DP_CTRL_CMD_START interrupted_twice)
    as (_ & Hiff & Hfail).
  destruct (a2dp_command_retries_once A2DP_CTRL_CMD_START connection_reset)
    as (_ & Hiff' & Hfail').
  split; split.
  - apply Hiff. repeat split. cbv. discriminate.
  - apply Hfail.
    + cbv. discriminate.
    + reflexivity.
    + right. reflexivity.
  - intros H. apply Hiff' in H. destruct H as (_ & _ & H).
    revert H. cbv. discriminate.
  - apply Hfail'.
    + cbv. discriminate.
    + reflexivity.
    + left. cbv. discriminate.
Defined.

(** C8 (fails on the code): a wait that ends because the stack closed the
    control socket is a failed wait too, and [a2dp_command] misses it.
    [recv] returns [0] there, which passes the test for a negative result;
    no byte was stored, and the value [b] left in [ack] is decoded as if
    it had arrived.  The control handle is neither closed nor marked
    disconnected, there is no retry, and the result is not an error unless
    [b] happens to be a failure code: with [b = 0] the command is reported
    as acknowledged. *)
Theorem a2dp_command_takes_eof_for_ack (b : Z) :
  sys_ret (upcoming (peer_closed b) 1) = 0 /\
  fst (a2dp_command A2DP_CTRL_CMD_START (peer_closed b)) = decode_ack b /\
  fst (a2dp_command A2DP_CTRL_CMD_START (peer_closed A2DP_CTRL_ACK_SUCCESS)) = 0 /\
  ctrl_fd (m_out (snd (a2dp_command A2DP_CTRL_CMD_START (peer_closed b)))) = 5 /\
  ctrl_fd (m_out (snd (a2dp_command A2DP_CTRL_CMD_START (peer_closed b))))
  <> AUDIO_SKT_DISCONNECTED /\
  ack_waits_during A2DP_CTRL_CMD_START (peer_closed b) = 1%nat /\
  m_trace (snd (a2dp_command A2DP_CTRL_CMD_START (peer_closed b)))
  = [EvSendCmd 5 A2DP_CTRL_CMD_START; EvRecvAck 5].
Proof.
  repeat split. cbv. discriminate.
Qed.


(** ** Stream open *)

Section Open.

Variables (default_rate default_format default_channels buffer : Z).

Local Abbreviation open_output_stream :=
  (adev_open_output_stream default_rate default_format default_channels buffer).

(** X22: whenever the open returns [-1], the stream object is freed and
    both pointers are null. *)
Lemma adev_open_output_stream_failure_is_clean (m : machine) :
  fst (open_output_stream m) = -1 ->
  m_allocated (snd (open_output_stream m)) = false /\
  m_stream_out (snd (open_output_stream m)) = NULL /\
  m_dev_output (snd (open_output_stream m)) = NULL.
Proof.
  unfold adev_open_output_stream, a2dp_stream_out_init. run.
  split_if; run.
  - cbv. discriminate.
  - destruct (ctrl_chan_retry _ _) as [u m1]. run.
    split_if; run; auto. discriminate.
Qed.

(** X21: three refused connections exhaust the retries: the open returns
    [-1] with nothing left behind. *)
Lemma adev_open_output_stream_connect_refused (m : machine) :
  sys_ret (upcoming m 0) <> 0 ->
  sys_ret (upcoming m 2) < 0 ->
  sys_ret (upcoming m 4) < 0 ->
  sys_ret (upcoming m 6) < 0 ->
  fst (open_output_stream m) = -1 /\
  m_allocated (snd (open_output_stream m)) = false /\
  m_stream_out (snd (open_output_stream m)) = NULL /\
  m_dev_output (snd (open_output_stream m)) = NULL.
Proof.
  unfold upcoming. rewrite Nat.add_0_r.
  replace (m_tick m + 2)%nat with (S (S (m_tick m))) by lia.
  replace (m_tick m + 4)%nat with (S (S (S (S (m_tick m))))) by lia.
  replace (m_tick m + 6)%nat
    with (S (S (S (S (S (S (m_tick m))))))) by lia.
  intros H0 H2 H4 H6.
  apply Z.eqb_neq in H0. apply Z.ltb_lt in H2, H4, H6.
  unfold adev_open_output_stream, a2dp_stream_out_init,
    CTRL_CHAN_RETRY_COUNT, ctrl_chan_retry, skt_connect.
  run. rewrite H0. run.
  rewrite H2. run. cbn [Z.gtb Z.compare]. run.
  rewrite H4. run. cbn [Z.gtb Z.compare]. run.
  rewrite H6. run. cbn. auto.
Qed.

(** C9 (fails on the code): after a failed readiness check the retry loop
    closes the control socket and leaves its number in [ctrl_fd].  When
    the check fails with a failure ack at all three attempts, [ctrl_fd]
    is not the disconnected sentinel after the loop, and the open returns
    success: the stream object is kept, both pointers refer to it and its
    control handle is a descriptor that has been closed. *)
Theorem adev_open_output_stream_returns_closed_ctrl :
  fst (open_output_stream stack_never_ready) = 0 /\
  m_allocated (snd (open_output_stream stack_never_ready)) = true /\
  m_stream_out (snd (open_output_stream stack_never_ready)) = PTR_OUT /\
  m_dev_output (snd (open_output_stream stack_never_ready)) = PTR_OUT /\
  ctrl_fd (m_out (snd (open_output_stream stack_never_ready))) = 5 /\
  m_trace (snd (open_output_stream stack_never_ready))
  = [EvCalloc;
     EvSocket; EvConnect 5 A2DP_CTRL_PATH; EvSetsockopt 5 buffer;
     EvSendCmd 5 A2DP_CTRL_CMD_CHECK_READY; EvRecvAck 5;
     EvUsleep 250000; EvShutdown 5; EvClose 5; EvUsleep 250000;
     EvSocket; EvConnect 5 A2DP_CTRL_PATH; EvSetsockopt 5 buffer;
     EvSendCmd 5 A2DP_CTRL_CMD_CHECK_READY; EvRecvAck 5;
     EvUsleep 250000; EvShutdown 5; EvClose 5; EvUsleep 250000;
     EvSocket; EvConnect 5 A2DP_CTRL_PATH; EvSetsockopt 5 buffer;
     EvSendCmd 5 A2DP_CTRL_CMD_CHECK_READY; EvRecvAck 5;
     EvUsleep 250000; EvShutdown 5; EvClose 5; EvUsleep 250000;
     EvUsleep 250000].
Proof. repeat split. Qed.

End Open.

(** ** What the functions leave alone *)

Lemma keeps_ret {A B} (f : machine -> B) (a : A) : keeps f (ret a).
Proof. intro m. reflexivity. Qed.

Lemma keeps_bind {A B C} (f : machine -> C) (c : M A) (k : A -> M B) :
  keeps f c -> (forall a, keeps f (k a)) -> keeps f (bind c k).
Proof.
  intros Hc Hk m. unfold bind.
  specialize (Hc m). destruct (c m) as [a m1]. cbn [snd] in Hc.
  rewrite <- Hc. apply Hk.
Qed.

Create HintDb keeps.

Ltac keeps_step :=
  first
    [ apply keeps_ret
    | apply keeps_bind; [| intro]
    | solve [auto with keeps nocore]
    | match goal with
      | |- keeps _ (if ?b then _ else _) => destruct b
      | |- keeps _ (match ?x with _ => _ end) => destruct x
      end
    | progress cbv zeta
    | (let m := fresh "m" in intro m; reflexivity) ].

Ltac keeps_tac := repeat keeps_step.

Lemma skt_connect_fixed (p : skt_path) : keeps fixed (skt_connect p).
Proof. unfold skt_connect. keeps_tac. Qed.

Lemma skt_write_fixed (fd len : Z) : keeps fixed (skt_write fd len).
Proof. unfold skt_write. keeps_tac. Qed.

Lemma skt_disconnect_fixed (fd : Z) : keeps fixed (skt_disconnect fd).
Proof. unfold skt_disconnect. keeps_tac. Qed.

#[local] Hint Resolve skt_connect_fixed skt_write_fixed skt_disconnect_fixed
  : keeps.

Lemma ctrl_drop_fixed : keeps fixed ctrl_drop.
Proof. unfold ctrl_drop. keeps_tac. Qed.

#[local] Hint Resolve ctrl_drop_fixed : keeps.

Lemma a2dp_command_fixed (cmd : Z) : keeps fixed (a2dp_command cmd).
Proof. unfold a2dp_command. keeps_tac. Qed.

#[local] Hint Resolve a2dp_command_fixed : keeps.

Lemma start_audio_datapath_fixed : keeps fixed start_audio_datapath.
Proof. unfold start_audio_datapath. keeps_tac. Qed.

Lemma stop_audio_datapath_fixed : keeps fixed stop_audio_datapath.
Proof. unfold stop_audio_datapath. keeps_tac. Qed.

Lemma suspend_audio_datapath_fixed (standby : bool) :
  keeps fixed (suspend_audio_datapath standby).
Proof. unfold suspend_audio_datapath. keeps_tac. Qed.

Lemma check_a2dp_stream_started_fixed : keeps fixed check_a2dp_stream_started.
Proof. unfold check_a2dp_stream_started. keeps_tac. Qed.

Lemma check_a2dp_ready_fixed : keeps fixed check_a2dp_ready.
Proof. unfold check_a2dp_ready. keeps_tac. Qed.

#[local] Hint Resolve start_audio_datapath_fixed stop_audio_datapath_fixed
  suspend_audio_datapath_fixed check_a2dp_stream_started_fixed
  check_a2dp_ready_fixed : keeps.

Lemma out_write_locked_fixed (bytes : Z) : keeps fixed (out_write_locked bytes).
Proof. unfold out_write_locked. keeps_tac. Qed.

Lemma out_write_unlocked_fixed (bytes : Z) :
  keeps fixed (out_write_unlocked bytes (fun o => o)).
Proof. unfold out_write_unlocked. keeps_tac. Qed.

#[local] Hint Resolve out_write_locked_fixed out_write_unlocked_fixed : keeps.

Lemma out_write_fixed (bytes : Z) : keeps fixed (out_write bytes (fun o => o)).
Proof. unfold out_write. keeps_tac. Qed.

Lemma out_standby_fixed : keeps fixed out_standby.
Proof. unfold out_standby. keeps_tac. Qed.

Lemma out_set_parameters_fixed (closing : option string) :
  keeps fixed (out_set_parameters closing).
Proof. unfold out_set_parameters. keeps_tac. Qed.

#[local] Hint Resolve out_write_fixed out_standby_fixed
  out_set_parameters_fixed : keeps.

Lemma do_call_fixed (c : call) : keeps fixed (do_call c).
Proof. destruct c; cbn [do_call]; auto with keeps nocore. Qed.

#[local] Hint Resolve do_call_fixed : keeps.

(** X1: no sequence of writes, standbys and parameter calls changes the
    stream's configuration, its buffer size, the allocation of the stream
    object or the two pointers to it. *)
Theorem do_calls_keep_configuration (cs : list call) (m : machine) :
  cfg (m_out (snd (do_calls cs m))) = cfg (m_out m) /\
  buffer_sz (m_out (snd (do_calls cs m))) = buffer_sz (m_out m) /\
  m_allocated (snd (do_calls cs m)) = m_allocated m /\
  m_stream_out (snd (do_calls cs m)) = m_stream_out m /\
  m_dev_output (snd (do_calls cs m)) = m_dev_output m.
Proof.
  assert (H : keeps fixed (do_calls cs)).
  { induction cs as [| c cs IH]; cbn [do_calls]; keeps_tac. }
  specialize (H m). unfold fixed in H.
  injection H as H1 H2 H3 H4 H5 H6. auto.
Qed.

(** ** Measures of a trace *)

Lemma sent_cmds_app (t u : list event) :
  sent_cmds (t ++ u) = sent_cmds t ++ sent_cmds u.
Proof. unfold sent_cmds. apply flat_map_app. Qed.

Lemma sent_data_app (t u : list event) :
  sent_data (t ++ u) = sent_data t ++ sent_data u.
Proof. unfold sent_data. apply flat_map_app. Qed.

Lemma connects_app (t u : list event) :
  connects (t ++ u) = (connects t + connects u)%nat.
Proof. unfold connects. now rewrite filter_app, length_app. Qed.

Lemma slept_app (t u : list event) : slept (t ++ u) = slept t + slept u.
Proof.
  unfold slept. induction t as [| e t IH]; cbn [app fold_right].
  - reflexivity.
  - destruct e; rewrite IH; lia.
Qed.

Ltac measure :=
  repeat rewrite ?sent_cmds_app, ?sent_data_app, ?connects_app, ?slept_app,
                 ?ack_waits_app;
  cbn [sent_cmds sent_data connects slept ack_waits flat_map filter
       fold_right is_recv List.length app];
  rewrite ?app_nil_r.

Ltac to_prop :=
  repeat match goal with
         | H : (_ =? _) = true |- _ => apply Z.eqb_eq in H
         | H : (_ =? _) = false |- _ => apply Z.eqb_neq in H
         | H : (_ <? _) = true |- _ => apply Z.ltb_lt in H
         | H : (_ <? _) = false |- _ => apply Z.ltb_ge in H
         | H : (_ >? _) = true |- _ => apply Z.gtb_lt in H
         | H : negb _ = true |- _ => apply negb_true_iff in H
         | H : negb _ = false |- _ => apply negb_false_iff in H
         end.

(** The control exchange sends its command once and no payload. *)
Lemma a2dp_command_trace (cmd : Z) (m : machine) :
  sent_cmds (m_trace (snd (a2dp_command cmd m))) = sent_cmds (m_trace m) ++ [cmd] /\
  sent_data (m_trace (snd (a2dp_command cmd m))) = sent_data (m_trace m) /\
  connects (m_trace (snd (a2dp_command cmd m))) = connects (m_trace m) /\
  slept (m_trace (snd (a2dp_command cmd m))) = slept (m_trace m).
Proof.
  unfold a2dp_command, ctrl_drop, skt_disconnect. run.
  repeat (split_if; run); measure; repeat split; try lia; auto.
Qed.

(** X2: whatever the stack answers, [a2dp_command] returns [-1], [0] or
    the in-call code; it sends exactly the one command byte and no payload;
    of the stream object it can only change the control handle, which it
    sets to disconnected on some of the [-1] results and never on a result
    that is not negative. *)
Theorem a2dp_command_effect (cmd : Z) (m : machine) :
  (fst (a2dp_command cmd m) = -1 \/ fst (a2dp_command cmd m) = 0 \/
   fst (a2dp_command cmd m) = A2DP_CTRL_ACK_INCALL_FAILURE) /\
  sent_cmds (m_trace (snd (a2dp_command cmd m))) = sent_cmds (m_trace m) ++ [cmd] /\
  sent_data (m_trace (snd (a2dp_command cmd m))) = sent_data (m_trace m) /\
  (m_out (snd (a2dp_command cmd m)) = m_out m \/
   (fst (a2dp_command cmd m) = -1 /\
    m_out (snd (a2dp_command cmd m))
    = set_ctrl_fd AUDIO_SKT_DISCONNECTED (m_out m))).
Proof.
  destruct (a2dp_command_trace cmd m) as (Hc & Hd & _).
  destruct (a2dp_command_out cmd m) as [[Hr Ho] | [Ho Hr]]; auto 10.
Qed.

(** X3: when the command goes out and the first wait delivers a byte, the
    result is [0] for the success code, the in-call code for itself and
    [-1] for every other byte; there is one wait and the stream object,
    the control handle included, is untouched: a failure ack does not
    drop the control channel. *)
Theorem a2dp_command_decodes_ack (cmd : Z) (m : machine) :
  sys_ret (upcoming m 0) <> -1 ->
  0 <= sys_ret (upcoming m 1) ->
  fst (a2dp_command cmd m)
  = (if sys_byte (upcoming m 1) =? A2DP_CTRL_ACK_SUCCESS then 0
     else if sys_byte (upcoming m 1) =? A2DP_CTRL_ACK_INCALL_FAILURE
          then A2DP_CTRL_ACK_INCALL_FAILURE else -1) /\
  m_out (snd (a2dp_command cmd m)) = m_out m /\
  ack_waits_during cmd m = 1%nat /\
  m_trace (snd (a2dp_command cmd m))
  = m_trace m ++ [EvSendCmd (ctrl_fd (m_out m)) cmd; EvRecvAck (ctrl_fd (m_out m))].
Proof.
  unfold ack_waits_during, upcoming. rewrite Nat.add_0_r.
  replace (m_tick m + 1)%nat with (S (m_tick m)) by lia.
  intros Hs Hr. apply Z.eqb_neq in Hs. apply Z.ltb_ge in Hr.
  unfold a2dp_command. run. rewrite Hs. run. rewrite Hr. run.
  rewrite <- app_assoc. cbn [app]. measure.
  repeat split; try lia.
  unfold decode_ack, A2DP_CTRL_ACK_SUCCESS, A2DP_CTRL_ACK_INCALL_FAILURE.
  repeat (split_if; cbn [negb]); to_prop; try reflexivity; lia.
Qed.

(** X3 at a started stream answered with the failure ack. *)
Lemma a2dp_command_decodes_ack_witness :
  fst (a2dp_command A2DP_CTRL_CMD_SUSPEND nack) = -1 /\
  m_out (snd (a2dp_command A2DP_CTRL_CMD_SUSPEND nack)) = m_out nack /\
  ack_waits_during A2DP_CTRL_CMD_SUSPEND nack = 1%nat /\
  m_trace (snd (a2dp_command A2DP_CTRL_CMD_SUSPEND nack))
  = [EvSendCmd 5 A2DP_CTRL_CMD_SUSPEND; EvRecvAck 5].
Proof.
  apply (a2dp_command_decodes_ack A2DP_CTRL_CMD_SUSPEND nack).
  - cbv. discriminate.
  - cbv. discriminate.
Defined.

(** X4: when the command byte cannot be sent, [a2dp_command] waits for no
    ack, returns [-1], shuts the control socket down if it was connected
    and marks the handle disconnected. *)
Theorem a2dp_command_send_failure (cmd : Z) (m : machine) :
  sys_ret (upcoming m 0) = -1 ->
  fst (a2dp_command cmd m) = -1 /\
  m_out (snd (a2dp_command cmd m)) = set_ctrl_fd AUDIO_SKT_DISCONNECTED (m_out m) /\
  ack_waits_during cmd m = 0%nat /\
  m_trace (snd (a2dp_command cmd m))
  = m_trace m ++ EvSendCmd (ctrl_fd (m_out m)) cmd
      :: (if ctrl_fd (m_out m) =? AUDIO_SKT_DISCONNECTED then []
          else [EvShutdown (ctrl_fd (m_out m)); EvClose (ctrl_fd (m_out m))]).
Proof.
  unfold ack_waits_during, upcoming. rewrite Nat.add_0_r.
  intros Hs.
  unfold a2dp_command, ctrl_drop, skt_disconnect. run. rewrite Hs.
  cbn [Z.eqb Pos.eqb]. run.
  destruct (ctrl_fd (m_out m) =? AUDIO_SKT_DISCONNECTED) eqn:E; cbn [negb]; run;
    rewrite <- ?app_assoc; cbn [app]; measure; repeat split; lia.
Qed.

(** X4 at a started stream whose control socket refuses the send. *)
Lemma a2dp_command_send_failure_witness :
  fst (a2dp_command A2DP_CTRL_CMD_STOP send_cmd_fails) = -1 /\
  m_out (snd (a2dp_command A2DP_CTRL_CMD_STOP send_cmd_fails))
  = stream AUDIO_SKT_DISCONNECTED 7 AUDIO_A2DP_STATE_STARTED /\
  ack_waits_during A2DP_CTRL_CMD_STOP send_cmd_fails = 0%nat /\
  m_trace (snd (a2dp_command A2DP_CTRL_CMD_STOP send_cmd_fails))
  = [EvSendCmd 5 A2DP_CTRL_CMD_STOP; EvShutdown 5; EvClose 5].
Proof.
  apply (a2dp_command_send_failure A2DP_CTRL_CMD_STOP send_cmd_fails).
  reflexivity.
Defined.

(** ** Outcomes of the transitions *)

Lemma fixed_oracle (m m' : machine) :
  fixed m' = fixed m -> m_oracle m' = m_oracle m.
Proof. unfold fixed. intros H. now injection H. Qed.

Lemma posix_kept (m m' : machine) :
  m_oracle m' = m_oracle m -> posix m -> posix m'.
Proof. unfold posix. intros -> H. exact H. Qed.

(** Under [posix] a descriptor returned by [skt_connect] is [-1] or a
    descriptor number. *)
Lemma skt_connect_ret (p : skt_path) (m : machine) :
  posix m -> -1 <= fst (skt_connect p m).
Proof.
  intros Hp. unfold skt_connect. run.
  split_if; run; [lia | apply Hp].
Qed.

Lemma start_audio_datapath_cases (m : machine) :
  audio_fd (m_out m) = AUDIO_SKT_DISCONNECTED ->
  posix m ->
  (fst (start_audio_datapath m) = 0 /\
   state (m_out (snd (start_audio_datapath m))) = AUDIO_A2DP_STATE_STARTED /\
   0 <= audio_fd (m_out (snd (start_audio_datapath m))) /\
   ctrl_fd (m_out (snd (start_audio_datapath m))) = ctrl_fd (m_out m))
  \/
  (fst (start_audio_datapath m) = -1 /\
   state (m_out (snd (start_audio_datapath m))) = state (m_out m) /\
   audio_fd (m_out (snd (start_audio_datapath m))) = AUDIO_SKT_DISCONNECTED).
Proof.
  intros Ha Hp. unfold start_audio_datapath. run.
  split_if; run; [right; auto |].
  cmd_cases A2DP_CTRL_CMD_START (entering AUDIO_A2DP_STATE_STARTING m) r m1 H.
  pose proof (a2dp_command_fixed A2DP_CTRL_CMD_START
                (entering AUDIO_A2DP_STATE_STARTING m)) as Hf.
  rewrite E in Hf. cbn [snd] in Hf. apply fixed_oracle in Hf.
  unfold entering, with_out in *. rewrite E. cbn [m_oracle] in Hf.
  cbn [m_out] in H.
  destruct H as [[-> H] | [H Hr]].
  - right. cbn. rewrite H. cbn. auto.
  - destruct (r <? 0) eqn:Hneg; run; [right; rewrite H; cbn; auto |].
    destruct (r =? A2DP_CTRL_ACK_INCALL_FAILURE) eqn:Hin; run;
      [right; rewrite H; cbn; auto |].
    rewrite H. cbn [audio_fd set_state]. rewrite Ha, Z.eqb_refl. run.
    assert (Hp1 : posix m1) by (eapply posix_kept; eauto).
    pose proof (skt_connect_out A2DP_DATA_PATH m1) as Hk.
    pose proof (skt_connect_ret A2DP_DATA_PATH m1 Hp1) as Hfd.
    destruct (skt_connect A2DP_DATA_PATH m1) as [fd m2]. cbn [fst snd] in *.
    destruct (fd <? 0) eqn:Hlt; run; to_prop; rewrite Hk, H; cbn.
    + right. repeat split.
      unfold AUDIO_SKT_DISCONNECTED. lia.
    + left. auto.
Qed.

Lemma suspend_audio_datapath_cases (standby : bool) (m : machine) :
  (fst (suspend_audio_datapath standby m) = 0 /\
   state (m_out (snd (suspend_audio_datapath standby m)))
   = (if standby then AUDIO_A2DP_STATE_STANDBY else AUDIO_A2DP_STATE_SUSPENDED) /\
   audio_fd (m_out (snd (suspend_audio_datapath standby m)))
   = AUDIO_SKT_DISCONNECTED /\
   ctrl_fd (m_out (snd (suspend_audio_datapath standby m))) = ctrl_fd (m_out m) /\
   ctrl_fd (m_out m) <> AUDIO_SKT_DISCONNECTED /\
   state (m_out m) <> AUDIO_A2DP_STATE_STOPPING)
  \/
  (fst (suspend_audio_datapath standby m) = -1 /\
   state (m_out (snd (suspend_audio_datapath standby m))) = state (m_out m) /\
   audio_fd (m_out (snd (suspend_audio_datapath standby m)))
   = audio_fd (m_out m)).
Proof.
  unfold suspend_audio_datapath. run.
  destruct (ctrl_fd (m_out m) =? AUDIO_SKT_DISCONNECTED) eqn:Hc; run; auto.
  destruct (a2dp_state_eqb (state (m_out m)) AUDIO_A2DP_STATE_STOPPING) eqn:Hs;
    run; auto.
  apply Z.eqb_neq in Hc. apply a2dp_state_eqb_neq in Hs.
  cmd_cases A2DP_CTRL_CMD_SUSPEND m r m1 H.
  destruct (r <? 0) eqn:Hneg; run.
  - right. destruct H as [[_ ->] | [-> _]]; cbn; auto.
  - left. destruct H as [[-> _] | [H _]]; [discriminate |].
    match goal with
    | |- context [skt_disconnect ?fd ?mm] =>
        destruct (skt_disconnect_out fd mm) as [_ Hd];
        destruct (skt_disconnect fd mm) as [z m2]
    end.
    cbn [fst snd m_out] in *. rewrite Hd, H. cbn.
    destruct standby; auto 10.
Qed.

(** X5: [suspend_audio_datapath] either returns [0] with the state the
    caller asked for ([STANDBY] or [SUSPENDED]), the data socket handle
    disconnected and the control handle kept, or returns [-1] with the
    state and the data socket handle as they were.  It never succeeds
    without a control channel or from [STOPPING]. *)
Theorem suspend_audio_datapath_outcomes (standby : bool) (m : machine) :
  (fst (suspend_audio_datapath standby m) = 0 /\
   state (m_out (snd (suspend_audio_datapath standby m)))
   = (if standby then AUDIO_A2DP_STATE_STANDBY else AUDIO_A2DP_STATE_SUSPENDED) /\
   audio_fd (m_out (snd (suspend_audio_datapath standby m)))
   = AUDIO_SKT_DISCONNECTED /\
   ctrl_fd (m_out (snd (suspend_audio_datapath standby m))) = ctrl_fd (m_out m) /\
   ctrl_fd (m_out m) <> AUDIO_SKT_DISCONNECTED /\
   state (m_out m) <> AUDIO_A2DP_STATE_STOPPING)
  \/
  (fst (suspend_audio_datapath standby m) = -1 /\
   state (m_out (snd (suspend_audio_datapath standby m))) = state (m_out m) /\
   audio_fd (m_out (snd (suspend_audio_datapath standby m)))
   = audio_fd (m_out m)).
Proof. apply suspend_audio_datapath_cases. Qed.

(** X6: without a control channel [start_audio_datapath],
    [stop_audio_datapath] and [suspend_audio_datapath] return [-1] at once:
    no system call is made and nothing is written, not even the transient
    state. *)
Theorem transitions_need_control_channel (standby : bool) (m : machine) :
  ctrl_fd (m_out m) = AUDIO_SKT_DISCONNECTED ->
  start_audio_datapath m = (-1, m) /\
  stop_audio_datapath m = (-1, m) /\
  suspend_audio_datapath standby m = (-1, m).
Proof.
  intros Hc.
  unfold start_audio_datapath, stop_audio_datapath, suspend_audio_datapath.
  run. rewrite Hc. cbn. auto.
Qed.

(** X6 at a stopped stream whose control channel is gone. *)
Lemma transitions_need_control_channel_witness :
  start_audio_datapath ctrl_lost = (-1, ctrl_lost) /\
  stop_audio_datapath ctrl_lost = (-1, ctrl_lost) /\
  suspend_audio_datapath true ctrl_lost = (-1, ctrl_lost).
Proof.
  apply (transitions_need_control_channel true ctrl_lost). reflexivity.
Defined.

(** X7: called with the data socket disconnected, [start_audio_datapath]
    either returns [0] with state [STARTED], a connected data socket and
    the control handle kept, or returns [-1] with the state it was called
    in and the data socket handle disconnected. *)
Theorem start_audio_datapath_outcomes (m : machine) :
  audio_fd (m_out m) = AUDIO_SKT_DISCONNECTED ->
  posix m ->
  (fst (start_audio_datapath m) = 0 /\
   state (m_out (snd (start_audio_datapath m))) = AUDIO_A2DP_STATE_STARTED /\
   0 <= audio_fd (m_out (snd (start_audio_datapath m))) /\
   ctrl_fd (m_out (snd (start_audio_datapath m))) = ctrl_fd (m_out m))
  \/
  (fst (start_audio_datapath m) = -1 /\
   state (m_out (snd (start_audio_datapath m))) = state (m_out m) /\
   audio_fd (m_out (snd (start_audio_datapath m))) = AUDIO_SKT_DISCONNECTED).
Proof. apply start_audio_datapath_cases. Qed.

Lemma script_posix (l : list sysret) :
  forallb (fun r => -1 <=? sys_ret r) l = true ->
  forall n, -1 <= sys_ret (script l n).
Proof.
  intros H n. unfold script.
  rewrite forallb_forall in H.
  destruct (nth_in_or_default n l (mk_sysret 0 0 0)) as [Hin | ->].
  - apply Z.leb_le. now apply H.
  - cbn. lia.
Qed.

(** X7 at the stopped stream of [first_write]: the start succeeds. *)
Lemma start_audio_datapath_outcomes_witness :
  (fst (start_audio_datapath first_write) = 0 /\
   state (m_out (snd (start_audio_datapath first_write)))
   = AUDIO_A2DP_STATE_STARTED /\
   0 <= audio_fd (m_out (snd (start_audio_datapath first_write))) /\
   ctrl_fd (m_out (snd (start_audio_datapath first_write)))
   = ctrl_fd (m_out first_write))
  \/
  (fst (start_audio_datapath first_write) = -1 /\
   state (m_out (snd (start_audio_datapath first_write)))
   = state (m_out first_write) /\
   audio_fd (m_out (snd (start_audio_datapath first_write)))
   = AUDIO_SKT_DISCONNECTED).
Proof.
  apply (start_audio_datapath_outcomes first_write).
  - reflexivity.
  - unfold posix, first_write, running. cbn [m_oracle].
    apply script_posix. reflexivity.
Defined.

(** ** Outcomes of a write *)

(** The unlocked half of a write that runs alone: either the send failed
    and the stream is demoted, or the stream object is untouched. *)
Lemma out_write_unlocked_cases (bytes : Z) (m : machine) :
  (fst (out_write_unlocked bytes (fun o => o) m) = -1 /\
   audio_fd (m_out (snd (out_write_unlocked bytes (fun o => o) m)))
   = AUDIO_SKT_DISCONNECTED /\
   ctrl_fd (m_out (snd (out_write_unlocked bytes (fun o => o) m)))
   = ctrl_fd (m_out m) /\
   state (m_out (snd (out_write_unlocked bytes (fun o => o) m)))
   = (if a2dp_state_eqb (state (m_out m)) AUDIO_A2DP_STATE_SUSPENDED
      then AUDIO_A2DP_STATE_SUSPENDED else AUDIO_A2DP_STATE_STOPPED))
  \/
  (fst (out_write_unlocked bytes (fun o => o) m) <> -1 /\
   m_out (snd (out_write_unlocked bytes (fun o => o) m)) = m_out m).
Proof.
  unfold out_write_unlocked, skt_write, skt_disconnect. run.
  destruct (sys_ret (m_oracle m (m_tick m)) =? 0) eqn:Hp; run.
  - right. cbn. split; [discriminate | reflexivity].
  - destruct (sys_ret (m_oracle m (S (m_tick m))) =? -1) eqn:Hs; run.
    + left. cbn [Z.eqb Pos.eqb]. run.
      destruct (negb (audio_fd (m_out m) =? AUDIO_SKT_DISCONNECTED)); run;
        cbn [state set_audio_fd];
        destruct (a2dp_state_eqb (state (m_out m)) AUDIO_A2DP_STATE_SUSPENDED)
          eqn:Hsus; cbn; auto;
        apply a2dp_state_eqb_eq in Hsus; auto.
    + right. apply Z.eqb_neq in Hs. rewrite (proj2 (Z.eqb_neq _ _) Hs).
      cbn. auto.
Qed.

(** X8: a write to a started stream with nothing else running makes no
    control exchange.  When the poll does not time out and the send
    accepts [n] bytes, the write returns [n] (which may be less than the
    payload: there is no second send), the payload went out once on the
    data socket and the stream object is untouched. *)
Theorem out_write_started_passes_payload (bytes : Z) (m : machine) :
  state (m_out m) = AUDIO_A2DP_STATE_STARTED ->
  sys_ret (upcoming m 0) <> 0 ->
  sys_ret (upcoming m 1) <> -1 ->
  fst (out_write bytes (fun o => o) m) = sys_ret (upcoming m 1) /\
  m_out (snd (out_write bytes (fun o => o) m)) = m_out m /\
  m_trace (snd (out_write bytes (fun o => o) m))
  = m_trace m ++ [EvPoll (audio_fd (m_out m)) 500;
                  EvSendData (audio_fd (m_out m)) bytes].
Proof.
  unfold upcoming. rewrite Nat.add_0_r.
  replace (m_tick m + 1)%nat with (S (m_tick m)) by lia.
  intros Hs Hp Hn. apply Z.eqb_neq in Hp, Hn.
  unfold out_write, out_write_locked, out_write_unlocked, skt_write. run.
  rewrite Hs. cbn [a2dp_state_eqb orb negb]. run.
  rewrite Hp. run. rewrite Hn. run. rewrite Hn. cbn [fst snd m_out m_trace].
  rewrite <- app_assoc. cbn [app]. destruct (m_out m); auto.
Qed.

(** X8 at a started stream whose data socket takes 1000 of 4096 bytes. *)
Lemma out_write_started_passes_payload_witness :
  fst (out_write 4096 (fun o => o)
         (running (stream 5 7 AUDIO_A2DP_STATE_STARTED) [returns 1; returns 1000]))
  = sys_ret (returns 1000) /\
  m_out (snd (out_write 4096 (fun o => o)
         (running (stream 5 7 AUDIO_A2DP_STATE_STARTED) [returns 1; returns 1000])))
  = stream 5 7 AUDIO_A2DP_STATE_STARTED /\
  m_trace (snd (out_write 4096 (fun o => o)
         (running (stream 5 7 AUDIO_A2DP_STATE_STARTED) [returns 1; returns 1000])))
  = [EvPoll 7 500; EvSendData 7 4096].
Proof.
  apply (out_write_started_passes_payload 4096
           (running (stream 5 7 AUDIO_A2DP_STATE_STARTED)
                    [returns 1; returns 1000])).
  - reflexivity.
  - cbv. discriminate.
  - cbv. discriminate.
Defined.

(** X9: a write that finds the stream in one of the transient states,
    [STARTING] or [STOPPING], returns [-1] and changes nothing: no start
    is attempted, nothing is sent and no time is slept. *)
Theorem out_write_refused_in_transition
    (bytes : Z) (others : a2dp_stream_out -> a2dp_stream_out) (m : machine) :
  state (m_out m) = AUDIO_A2DP_STATE_STARTING \/
  state (m_out m) = AUDIO_A2DP_STATE_STOPPING ->
  out_write bytes others m = (-1, m).
Proof.
  intros [Hs | Hs]; unfold out_write, out_write_locked; run;
    rewrite Hs; reflexivity.
Qed.

(** X9 at a stream that is stopping. *)
Lemma out_write_refused_in_transition_witness :
  out_write 4096 (fun o => o) already_stopping = (-1, already_stopping).
Proof.
  apply (out_write_refused_in_transition 4096 (fun o => o) already_stopping).
  right. reflexivity.
Defined.

(** X10: the first write to a stopped or standby stream with a working
    stack starts it.  When the Start command is acknowledged, the data
    endpoint accepts the connection on descriptor [fd], and the send takes
    [n] bytes, the write returns [n], the state is [STARTED], the data
    handle is [fd] and the payload went out on [fd] after the Start
    exchange and the connect. *)
Theorem out_write_autostarts (bytes : Z) (m : machine) :
  state (m_out m) = AUDIO_A2DP_STATE_STOPPED \/
  state (m_out m) = AUDIO_A2DP_STATE_STANDBY ->
  ctrl_fd (m_out m) <> AUDIO_SKT_DISCONNECTED ->
  audio_fd (m_out m) = AUDIO_SKT_DISCONNECTED ->
  sys_ret (upcoming m 0) <> -1 ->
  0 <= sys_ret (upcoming m 1) ->
  sys_byte (upcoming m 1) = A2DP_CTRL_ACK_SUCCESS ->
  0 <= sys_ret (upcoming m 2) ->
  0 <= sys_ret (upcoming m 3) ->
  sys_ret (upcoming m 4) <> 0 ->
  sys_ret (upcoming m 5) <> -1 ->
  fst (out_write bytes (fun o => o) m) = sys_ret (upcoming m 5) /\
  state (m_out (snd (out_write bytes (fun o => o) m))) = AUDIO_A2DP_STATE_STARTED /\
  audio_fd (m_out (snd (out_write bytes (fun o => o) m))) = sys_ret (upcoming m 2) /\
  ctrl_fd (m_out (snd (out_write bytes (fun o => o) m))) = ctrl_fd (m_out m) /\
  m_trace (snd (out_write bytes (fun o => o) m))
  = m_trace m ++
    [EvSendCmd (ctrl_fd (m_out m)) A2DP_CTRL_CMD_START;
     EvRecvAck (ctrl_fd (m_out m));
     EvSocket;
     EvConnect (sys_ret (upcoming m 2)) A2DP_DATA_PATH;
     EvSetsockopt (sys_ret (upcoming m 2)) (buffer_sz (m_out m));
     EvPoll (sys_ret (upcoming m 2)) 500;
     EvSendData (sys_ret (upcoming m 2)) bytes].
Proof.
  unfold upcoming. rewrite Nat.add_0_r.
  replace (m_tick m + 1)%nat with (S (m_tick m)) by lia.
  replace (m_tick m + 2)%nat with (S (S (m_tick m))) by lia.
  replace (m_tick m + 3)%nat with (S (S (S (m_tick m)))) by lia.
  replace (m_tick m + 4)%nat with (S (S (S (S (m_tick m))))) by lia.
  replace (m_tick m + 5)%nat with (S (S (S (S (S (m_tick m)))))) by lia.
  intros Hs Hc Ha H0 H1 Hb H2 H3 H4 H5.
  apply Z.eqb_neq in Hc, H0, H4, H5. apply Z.ltb_ge in H1, H2, H3.
  unfold out_write, out_write_locked, start_audio_datapath, a2dp_command,
    skt_connect, out_write_unlocked, skt_write.
  destruct Hs as [Hs | Hs]; run; rewrite Hs; cbn [a2dp_state_eqb orb negb];
    run; rewrite Hc; run; rewrite H0; run; rewrite H1; run;
    unfold decode_ack; rewrite Hb; cbn [Z.eqb Z.ltb Z.compare negb
      A2DP_CTRL_ACK_SUCCESS A2DP_CTRL_ACK_INCALL_FAILURE]; run;
    cbn [audio_fd set_state]; rewrite Ha, Z.eqb_refl; run;
    rewrite H3; run; rewrite H2; run; cbn [Z.ltb Z.compare]; run;
    rewrite H4; run; rewrite H5; run; rewrite H5;
    cbn [fst snd m_out m_trace state audio_fd ctrl_fd set_state set_audio_fd
         buffer_sz];
    repeat rewrite <- app_assoc; cbn [app]; auto.
Qed.

(** X10 at the stopped stream of [first_write]. *)
Lemma out_write_autostarts_witness :
  fst (out_write 4096 (fun o => o) first_write) = 4096 /\
  state (m_out (snd (out_write 4096 (fun o => o) first_write)))
  = AUDIO_A2DP_STATE_STARTED /\
  audio_fd (m_out (snd (out_write 4096 (fun o => o) first_write))) = 9 /\
  ctrl_fd (m_out (snd (out_write 4096 (fun o => o) first_write))) = 5 /\
  m_trace (snd (out_write 4096 (fun o => o) first_write))
  = [EvSendCmd 5 A2DP_CTRL_CMD_START; EvRecvAck 5; EvSocket;
     EvConnect 9 A2DP_DATA_PATH; EvSetsockopt 9 10240;
     EvPoll 9 500; EvSendData 9 4096].
Proof.
  apply (out_write_autostarts 4096 first_write);
    try reflexivity; try (cbv; discriminate).
  left. reflexivity.
Defined.

(** X11 at the stream of the specification's timing example: 1024 bytes of
    8 kHz mono, control channel gone. *)
Lemma out_write_blocks_for_playback_time_witness :
  fst (out_write 1024 (fun o => o)
         (running (mk_out AUDIO_SKT_DISCONNECTED AUDIO_SKT_DISCONNECTED 10240
                          AUDIO_A2DP_STATE_STOPPED mono_8000) [])) = -1 /\
  m_trace (snd (out_write 1024 (fun o => o)
         (running (mk_out AUDIO_SKT_DISCONNECTED AUDIO_SKT_DISCONNECTED 10240
                          AUDIO_A2DP_STATE_STOPPED mono_8000) [])))
  = [] ++ [EvUsleep 64000].
Proof.
  apply (out_write_blocks_for_playback_time 1024 (fun o => o)
           (running (mk_out AUDIO_SKT_DISCONNECTED AUDIO_SKT_DISCONNECTED 10240
                            AUDIO_A2DP_STATE_STOPPED mono_8000) []));
    try reflexivity; try (split; reflexivity);
    try (split; [cbv; discriminate | reflexivity]).
  left. reflexivity.
Defined.

(** ** The parameter path *)

Lemma out_write_not_eligible
    (bytes : Z) (others : a2dp_stream_out -> a2dp_stream_out) (m : machine) :
  state (m_out m) = AUDIO_A2DP_STATE_SUSPENDED \/
  state (m_out m) = AUDIO_A2DP_STATE_STARTING \/
  state (m_out m) = AUDIO_A2DP_STATE_STOPPING ->
  out_write bytes others m = (-1, m).
Proof.
  intros [Hs | [Hs | Hs]]; unfold out_write, out_write_locked; run;
    rewrite Hs; reflexivity.
Qed.

(** "closing=true": the state is set to [STOPPING], the stack is asked
    whether it is streaming, and either the suspend that follows is refused
    by the [STOPPING] guard or the state is set to [SUSPENDED]. *)
Lemma out_set_parameters_closing_cases (m : machine) :
  audio_fd (m_out (snd (out_set_parameters (Some "true"%string) m)))
  = audio_fd (m_out m) /\
  (ctrl_fd (m_out (snd (out_set_parameters (Some "true"%string) m)))
   = ctrl_fd (m_out m) \/
   ctrl_fd (m_out (snd (out_set_parameters (Some "true"%string) m)))
   = AUDIO_SKT_DISCONNECTED) /\
  sent_cmds (m_trace (snd (out_set_parameters (Some "true"%string) m)))
  = sent_cmds (m_trace m) ++ [A2DP_CTRL_CMD_CHECK_STREAM_STARTED] /\
  sent_data (m_trace (snd (out_set_parameters (Some "true"%string) m)))
  = sent_data (m_trace m) /\
  ((fst (out_set_parameters (Some "true"%string) m) = -1 /\
    state (m_out (snd (out_set_parameters (Some "true"%string) m)))
    = AUDIO_A2DP_STATE_STOPPING)
   \/
   (fst (out_set_parameters (Some "true"%string) m) = 0 /\
    state (m_out (snd (out_set_parameters (Some "true"%string) m)))
    = AUDIO_A2DP_STATE_SUSPENDED)).
Proof.
  unfold out_set_parameters, check_a2dp_stream_started. cbn [String.eqb Ascii.eqb Bool.eqb].
  run. cbn [state set_state a2dp_state_eqb].
  pose proof (a2dp_command_trace A2DP_CTRL_CMD_CHECK_STREAM_STARTED
                (entering AUDIO_A2DP_STATE_STOPPING m)) as (Hc & Hd & _).
  cmd_cases A2DP_CTRL_CMD_CHECK_STREAM_STARTED
            (entering AUDIO_A2DP_STATE_STOPPING m) r m1 H.
  unfold entering, with_out in *. rewrite E. cbn [snd m_trace m_out] in *.
  destruct (r <? 0) eqn:Hneg; run.
  - (* not streaming: SUSPENDED *)
    cbn [Z.eqb]. run. rewrite Hc, Hd.
    destruct H as [[_ ->] | [-> _]]; cbn; auto 10.
  - (* streaming: the suspend is refused *)
    destruct H as [[-> _] | [H _]]; [discriminate |].
    cbn [Z.eqb]. unfold suspend_audio_datapath. run. rewrite H.
    cbn [ctrl_fd state set_state a2dp_state_eqb].
    destruct (ctrl_fd (m_out m) =? AUDIO_SKT_DISCONNECTED); run;
      rewrite Hc, Hd, H; cbn; auto 10.
Qed.

(** A value other than "true", or no "closing" key at all. *)
Lemma out_set_parameters_resume_cases (closing : option string) (m : machine) :
  keeps_open (CallSetParameters closing) = true ->
  out_set_parameters closing m
  = (0, match closing with
        | Some _ =>
            if a2dp_state_eqb (state (m_out m)) AUDIO_A2DP_STATE_SUSPENDED
            then with_out (set_state AUDIO_A2DP_STATE_STANDBY) m
            else m
        | None => m
        end).
Proof.
  unfold keeps_open, out_set_parameters. intros Hk.
  destruct closing as [keyval |]; run; [| reflexivity].
  apply negb_true_iff in Hk. rewrite Hk. run.
  destruct (a2dp_state_eqb (state (m_out m)) AUDIO_A2DP_STATE_SUSPENDED);
    reflexivity.
Qed.

(** X12: "closing=true" asks the stack whether it is streaming and sends
    no other command: the Suspend command is never sent and the data
    socket is never touched.  It ends either with [-1] and the state
    [STOPPING] (the stack is streaming and the suspend that follows is
    refused by the [STOPPING] guard) or with [0] and the state
    [SUSPENDED]. *)
Theorem out_set_parameters_closing (m : machine) :
  audio_fd (m_out (snd (out_set_parameters (Some "true"%string) m)))
  = audio_fd (m_out m) /\
  sent_cmds (m_trace (snd (out_set_parameters (Some "true"%string) m)))
  = sent_cmds (m_trace m) ++ [A2DP_CTRL_CMD_CHECK_STREAM_STARTED] /\
  sent_data (m_trace (snd (out_set_parameters (Some "true"%string) m)))
  = sent_data (m_trace m) /\
  ((fst (out_set_parameters (Some "true"%string) m) = -1 /\
    state (m_out (snd (out_set_parameters (Some "true"%string) m)))
    = AUDIO_A2DP_STATE_STOPPING)
   \/
   (fst (out_set_parameters (Some "true"%string) m) = 0 /\
    state (m_out (snd (out_set_parameters (Some "true"%string) m)))
    = AUDIO_A2DP_STATE_SUSPENDED)).
Proof.
  destruct (out_set_parameters_closing_cases m) as (Ha & _ & Hc & Hd & Hs).
  auto.
Qed.

(** X13: after "closing=true" every write is refused: it returns [-1]
    and makes no system call, whatever the stack answered. *)
Theorem closing_disallows_writes
    (bytes : Z) (others : a2dp_stream_out -> a2dp_stream_out) (m : machine) :
  out_write bytes others (snd (out_set_parameters (Some "true"%string) m))
  = (-1, snd (out_set_parameters (Some "true"%string) m)).
Proof.
  destruct (out_set_parameters_closing_cases m) as (_ & _ & _ & _ & Hs).
  apply out_write_not_eligible.
  destruct Hs as [[_ Hs] | [_ Hs]]; auto.
Qed.

(** X14: a "closing" value other than "true" returns [0] and makes no
    system call; it moves a suspended stream to standby and leaves every
    other stream as it is. *)
Theorem out_set_parameters_resume (keyval : string) (m : machine) :
  String.eqb keyval "true" = false ->
  out_set_parameters (Some keyval) m
  = (0, if a2dp_state_eqb (state (m_out m)) AUDIO_A2DP_STATE_SUSPENDED
        then with_out (set_state AUDIO_A2DP_STATE_STANDBY) m
        else m).
Proof.
  intros Hk. apply (out_set_parameters_resume_cases (Some keyval)).
  cbn. now rewrite Hk.
Qed.

(** X14 at a suspended stream told "closing=false". *)
Lemma out_set_parameters_resume_witness :
  out_set_parameters (Some "false"%string) suspended_stream
  = (0, running (stream 5 7 AUDIO_A2DP_STATE_STANDBY) []).
Proof.
  apply (out_set_parameters_resume "false" suspended_stream). reflexivity.
Defined.

(** X15: after a successful [suspend_audio_datapath] without standby,
    writes are refused untouched until the stream is resumed; a "closing"
    value other than "true" then puts it in standby with the data socket
    disconnected, where the next write may start it again.  After a
    successful suspend to standby no resume is needed. *)
Theorem suspend_then_resume
    (bytes : Z) (others : a2dp_stream_out -> a2dp_stream_out)
    (keyval : string) (m : machine) :
  fst (suspend_audio_datapath false m) = 0 ->
  String.eqb keyval "true" = false ->
  out_write bytes others (snd (suspend_audio_datapath false m))
  = (-1, snd (suspend_audio_datapath false m)) /\
  fst (out_set_parameters (Some keyval) (snd (suspend_audio_datapath false m)))
  = 0 /\
  m_out (snd (out_set_parameters (Some keyval)
                (snd (suspend_audio_datapath false m))))
  = set_state AUDIO_A2DP_STATE_STANDBY
      (set_audio_fd AUDIO_SKT_DISCONNECTED (m_out m)) /\
  m_out (snd (out_set_parameters (Some keyval)
                (snd (suspend_audio_datapath false m))))
  = m_out (snd (suspend_audio_datapath true m)).
Proof.
  intros Hok Hk.
  assert (Hsusp : forall b, fst (suspend_audio_datapath b m) = 0 /\
            m_out (snd (suspend_audio_datapath b m))
            = set_state (if b then AUDIO_A2DP_STATE_STANDBY
                         else AUDIO_A2DP_STATE_SUSPENDED)
                (set_audio_fd AUDIO_SKT_DISCONNECTED (m_out m))).
  { intro b. revert Hok. unfold suspend_audio_datapath. run.
    destruct (ctrl_fd (m_out m) =? AUDIO_SKT_DISCONNECTED); run;
      [discriminate |].
    destruct (a2dp_state_eqb (state (m_out m)) AUDIO_A2DP_STATE_STOPPING); run;
      [discriminate |].
    cmd_cases A2DP_CTRL_CMD_SUSPEND m r m1 H.
    destruct (r <? 0) eqn:Hneg; run; [discriminate |]. intros _.
    destruct H as [[-> _] | [H _]]; [discriminate |].
    repeat match goal with
    | |- context [skt_disconnect ?fd ?mm] =>
        let Hd := fresh "Hd" in
        destruct (skt_disconnect_out fd mm) as [_ Hd];
        destruct (skt_disconnect fd mm)
    end.
    cbn [fst snd m_out] in *.
    destruct b; cbn; rewrite ?Hd, ?Hd0, H; auto. }
  destruct (Hsusp false) as [_ Hf]. destruct (Hsusp true) as [_ Ht].
  split.
  - apply out_write_not_eligible. left. rewrite Hf. reflexivity.
  - rewrite out_set_parameters_resume_cases by (cbn; now rewrite Hk).
    cbn [fst snd]. rewrite Hf. cbn [state set_state a2dp_state_eqb].
    unfold with_out. cbn [m_out]. rewrite Ht, Hf. auto.
Qed.

(** X15 at a started stream whose Suspend is acknowledged. *)
Lemma suspend_then_resume_witness :
  out_write 4096 (fun o => o) (snd (suspend_audio_datapath false suspend_then_write))
  = (-1, snd (suspend_audio_datapath false suspend_then_write)) /\
  fst (out_set_parameters (Some "false"%string)
         (snd (suspend_audio_datapath false suspend_then_write))) = 0 /\
  m_out (snd (out_set_parameters (Some "false"%string)
                (snd (suspend_audio_datapath false suspend_then_write))))
  = set_state AUDIO_A2DP_STATE_STANDBY
      (set_audio_fd AUDIO_SKT_DISCONNECTED (m_out suspend_then_write)) /\
  m_out (snd (out_set_parameters (Some "false"%string)
                (snd (suspend_audio_datapath false suspend_then_write))))
  = m_out (snd (suspend_audio_datapath true suspend_then_write)).
Proof.
  apply (suspend_then_resume 4096 (fun o => o) "false" suspend_then_write);
    reflexivity.
Defined.

(** ** Invariants of call sequences *)

Lemma out_write_settled (bytes : Z) (m : machine) :
  posix m -> settled (m_out m) ->
  settled (m_out (snd (out_write bytes (fun o => o) m))).
Proof.
  intros Hp (H1 & H2 & H3).
  destruct (state (m_out m)) eqn:Hs; try congruence.
  - (* STARTED *)
    unfold out_write, out_write_locked. run. rewrite Hs.
    cbn [a2dp_state_eqb orb negb]. run.
    destruct (out_write_unlocked_cases bytes m) as [(_ & Ha & _ & Hst) | (_ & Ho)].
    + rewrite Hs in Hst. cbn [a2dp_state_eqb] in Hst.
      unfold settled. rewrite Hst, Ha. repeat split; congruence.
    + rewrite Ho. unfold settled. rewrite Hs. repeat split; congruence.
  - (* STOPPED *)
    assert (Ha : audio_fd (m_out m) = AUDIO_SKT_DISCONNECTED)
      by (apply H3; congruence).
    pose proof (start_audio_datapath_cases m Ha Hp) as Hstart.
    pose proof (start_audio_datapath_fixed m) as Hf. apply fixed_oracle in Hf.
    unfold out_write, out_write_locked. run. rewrite Hs.
    cbn [a2dp_state_eqb orb negb].
    destruct (start_audio_datapath m) as [r m1]. cbn [fst snd] in *.
    destruct Hstart as [(-> & Hst & Hfd & _) | (-> & Hst & Hfd)];
      cbn [Z.ltb Z.compare]; run.
    + destruct (out_write_unlocked_cases bytes m1)
        as [(_ & Ha' & _ & Hst') | (_ & Ho)].
      * rewrite Hst in Hst'. cbn [a2dp_state_eqb] in Hst'.
        unfold settled. rewrite Hst', Ha'. repeat split; congruence.
      * rewrite Ho. unfold settled. rewrite Hst. repeat split; congruence.
    + unfold settled. rewrite Hst, Hfd, Hs. repeat split; congruence.
  - (* SUSPENDED *)
    rewrite out_write_not_eligible by auto.
    unfold settled. cbn [snd]. rewrite Hs. auto.
  - (* STANDBY *)
    assert (Ha : audio_fd (m_out m) = AUDIO_SKT_DISCONNECTED)
      by (apply H3; congruence).
    pose proof (start_audio_datapath_cases m Ha Hp) as Hstart.
    unfold out_write, out_write_locked. run. rewrite Hs.
    cbn [a2dp_state_eqb orb negb].
    destruct (start_audio_datapath m) as [r m1]. cbn [fst snd] in *.
    destruct Hstart as [(-> & Hst & Hfd & _) | (-> & Hst & Hfd)];
      cbn [Z.ltb Z.compare]; run.
    + destruct (out_write_unlocked_cases bytes m1)
        as [(_ & Ha' & _ & Hst') | (_ & Ho)].
      * rewrite Hst in Hst'. cbn [a2dp_state_eqb] in Hst'.
        unfold settled. rewrite Hst', Ha'. repeat split; congruence.
      * rewrite Ho. unfold settled. rewrite Hst. repeat split; congruence.
    + unfold settled. rewrite Hst, Hfd, Hs. repeat split; congruence.
Qed.

Lemma out_standby_settled (m : machine) :
  settled (m_out m) -> settled (m_out (snd (out_standby m))).
Proof.
  intros (H1 & H2 & H3). unfold out_standby. run.
  destruct (a2dp_state_eqb (state (m_out m)) AUDIO_A2DP_STATE_SUSPENDED);
    cbn [negb]; [unfold settled; auto |].
  destruct (suspend_audio_datapath_cases true m)
    as [(_ & Hs & Ha & _) | (_ & Hs & Ha)];
    unfold settled; rewrite Hs, Ha; repeat split; auto; congruence.
Qed.

Lemma do_call_settled (c : call) (m : machine) :
  keeps_open c = true -> posix m -> settled (m_out m) ->
  settled (m_out (snd (do_call c m))).
Proof.
  intros Hk Hp Hs. destruct c as [bytes | | closing]; cbn [do_call].
  - now apply out_write_settled.
  - now apply out_standby_settled.
  - rewrite out_set_parameters_resume_cases by exact Hk. cbn [snd].
    destruct closing; [| exact Hs].
    destruct (a2dp_state_eqb (state (m_out m)) AUDIO_A2DP_STATE_SUSPENDED) eqn:E;
      [| exact Hs].
    apply a2dp_state_eqb_eq in E. destruct Hs as (H1 & H2 & H3).
    unfold settled, with_out. cbn. repeat split; try congruence.
    intros _. apply H3. congruence.
Qed.

(** X16: a stream that is settled (not in a transient state, and holding
    a data socket only while started), as a freshly opened stream is, stays
    settled through every sequence of writes, standbys and parameter calls
    that does not ask it to close: it never comes to rest in [STARTING] or
    [STOPPING], whatever the stack and the sockets answer. *)
Theorem do_calls_stay_settled (cs : list call) (m : machine) :
  posix m ->
  forallb keeps_open cs = true ->
  settled (m_out m) ->
  settled (m_out (snd (do_calls cs m))).
Proof.
  revert m. induction cs as [| c cs IH]; intros m Hp Hk Hs; cbn [do_calls].
  - exact Hs.
  - cbn [forallb] in Hk. apply andb_true_iff in Hk. destruct Hk as [Hc Hcs].
    unfold bind.
    pose proof (do_call_settled c m Hc Hp Hs) as Hs1.
    pose proof (do_call_fixed c m) as Hf. apply fixed_oracle in Hf.
    destruct (do_call c m) as [r m1]. cbn [snd] in *.
    specialize (IH m1 (posix_kept _ _ Hf Hp) Hcs Hs1).
    destruct (do_calls cs m1) as [rs m2]. exact IH.
Qed.

(** X16 at a write, a standby, a resume and a second write on a stopped
    stream. *)
Lemma do_calls_stay_settled_witness :
  settled (m_out (snd (do_calls [CallWrite 4096; CallStandby;
                                 CallSetParameters (Some "false"%string);
                                 CallWrite 4096] first_write))).
Proof.
  apply (do_calls_stay_settled
           [CallWrite 4096; CallStandby;
            CallSetParameters (Some "false"%string); CallWrite 4096]
           first_write).
  - unfold posix, first_write, running. cbn [m_oracle].
    apply script_posix. reflexivity.
  - reflexivity.
  - unfold settled. cbn. repeat split; try discriminate.
Defined.

Lemma start_audio_datapath_no_ctrl (m : machine) :
  ctrl_fd (m_out m) = AUDIO_SKT_DISCONNECTED ->
  start_audio_datapath m = (-1, m).
Proof.
  intros Hc. unfold start_audio_datapath. run. now rewrite Hc, Z.eqb_refl.
Qed.

Lemma suspend_audio_datapath_no_ctrl (standby : bool) (m : machine) :
  ctrl_fd (m_out m) = AUDIO_SKT_DISCONNECTED ->
  suspend_audio_datapath standby m = (-1, m).
Proof.
  intros Hc. unfold suspend_audio_datapath. run. now rewrite Hc, Z.eqb_refl.
Qed.

(** A write on a stream without control channel that is stopped or in
    standby: the start fails at once and the write sleeps. *)
Lemma out_write_no_ctrl (bytes : Z) (m : machine) :
  ctrl_fd (m_out m) = AUDIO_SKT_DISCONNECTED ->
  state (m_out m) = AUDIO_A2DP_STATE_STOPPED \/
  state (m_out m) = AUDIO_A2DP_STATE_STANDBY ->
  fst (out_write bytes (fun o => o) m) = -1 /\
  m_out (snd (out_write bytes (fun o => o) m)) = m_out m /\
  sent_data (m_trace (snd (out_write bytes (fun o => o) m)))
  = sent_data (m_trace m).
Proof.
  intros Hc Hs. unfold out_write, out_write_locked. run.
  destruct Hs as [-> | ->]; cbn [a2dp_state_eqb orb negb];
    rewrite (start_audio_datapath_no_ctrl m Hc); run;
    cbn [Z.ltb Z.compare]; run; measure; auto.
Qed.

Lemma do_call_ctrl_lost (c : call) (m : machine) :
  ctrl_fd (m_out m) = AUDIO_SKT_DISCONNECTED ->
  ctrl_fd (m_out (snd (do_call c m))) = AUDIO_SKT_DISCONNECTED.
Proof.
  intros Hc. destruct c as [bytes | | closing]; cbn [do_call].
  - destruct (state (m_out m)) eqn:E.
    + rewrite out_write_not_eligible by auto. exact Hc.
    + unfold out_write, out_write_locked. run. rewrite E.
      cbn [a2dp_state_eqb orb negb]. run.
      destruct (out_write_unlocked_cases bytes m)
        as [(_ & _ & Hk & _) | (_ & Ho)]; congruence.
    + rewrite out_write_not_eligible by auto. exact Hc.
    + destruct (out_write_no_ctrl bytes m Hc) as (_ & Ho & _); auto.
      congruence.
    + rewrite out_write_not_eligible by auto. exact Hc.
    + destruct (out_write_no_ctrl bytes m Hc) as (_ & Ho & _); auto.
      congruence.
  - unfold out_standby. run.
    destruct (a2dp_state_eqb (state (m_out m)) AUDIO_A2DP_STATE_SUSPENDED);
      cbn [negb]; [exact Hc |].
    now rewrite suspend_audio_datapath_no_ctrl.
  - destruct (keeps_open (CallSetParameters closing)) eqn:Hk.
    + rewrite out_set_parameters_resume_cases by exact Hk. cbn [snd].
      destruct closing; [| exact Hc].
      destruct (a2dp_state_eqb (state (m_out m)) AUDIO_A2DP_STATE_SUSPENDED);
        exact Hc.
    + destruct closing as [keyval |]; [| discriminate].
      cbn in Hk. apply negb_false_iff, String.eqb_eq in Hk. subst keyval.
      destruct (out_set_parameters_closing_cases m) as (_ & [H | H] & _);
        congruence.
Qed.

Lemma do_call_cut_off (c : call) (m : machine) :
  cut_off (m_out m) ->
  cut_off (m_out (snd (do_call c m))) /\
  write_refused c (fst (do_call c m)) /\
  sent_data (m_trace (snd (do_call c m))) = sent_data (m_trace m).
Proof.
  intros [Hc Hs].
  pose proof (do_call_ctrl_lost c m Hc) as Hc'.
  destruct c as [bytes | | closing]; cbn [do_call write_refused] in *.
  - destruct (state (m_out m)) eqn:E; try congruence.
    + rewrite out_write_not_eligible by auto.
      unfold cut_off. cbn [fst snd]. rewrite E. auto.
    + rewrite out_write_not_eligible by auto.
      unfold cut_off. cbn [fst snd]. rewrite E. auto.
    + destruct (out_write_no_ctrl bytes m Hc) as (Hr & Ho & Hd); auto.
      unfold cut_off. rewrite Ho, E. auto.
    + rewrite out_write_not_eligible by auto.
      unfold cut_off. cbn [fst snd]. rewrite E. auto.
    + destruct (out_write_no_ctrl bytes m Hc) as (Hr & Ho & Hd); auto.
      unfold cut_off. rewrite Ho, E. auto.
  - unfold out_standby. run.
    destruct (a2dp_state_eqb (state (m_out m)) AUDIO_A2DP_STATE_SUSPENDED);
      cbn [negb]; rewrite ?suspend_audio_datapath_no_ctrl by exact Hc;
      unfold cut_off; auto.
  - destruct (keeps_open (CallSetParameters closing)) eqn:Hk.
    + revert Hc'. rewrite out_set_parameters_resume_cases by exact Hk.
      cbn [snd fst]. intros Hc'.
      destruct closing; [| unfold cut_off; auto].
      destruct (a2dp_state_eqb (state (m_out m)) AUDIO_A2DP_STATE_SUSPENDED);
        unfold cut_off; cbn; repeat split; auto; discriminate.
    + destruct closing as [keyval |]; [| discriminate].
      cbn in Hk. apply negb_false_iff, String.eqb_eq in Hk. subst keyval.
      destruct (out_set_parameters_closing_cases m)
        as (_ & _ & _ & Hd & [[_ Hst] | [_ Hst]]);
        unfold cut_off; rewrite Hst; repeat split; auto; discriminate.
Qed.

(** X17: a dropped control channel is never re-established and a stream
    that is not started when it is dropped never starts again: through
    every sequence of calls the control handle stays disconnected, the
    state never becomes [STARTED], every write returns [-1] and no payload
    is sent. *)
Theorem do_calls_stay_cut_off (cs : list call) (m : machine) :
  cut_off (m_out m) ->
  cut_off (m_out (snd (do_calls cs m))) /\
  Forall2 write_refused cs (fst (do_calls cs m)) /\
  sent_data (m_trace (snd (do_calls cs m))) = sent_data (m_trace m).
Proof.
  revert m. induction cs as [| c cs IH]; intros m Hcut; cbn [do_calls].
  - cbn. auto.
  - unfold bind.
    destruct (do_call_cut_off c m Hcut) as (Hcut1 & Hr & Hd).
    destruct (do_call c m) as [r m1]. cbn [fst snd] in *.
    destruct (IH m1 Hcut1) as (Hcut2 & Hrs & Hd2).
    destruct (do_calls cs m1) as [rs m2]. cbn [fst snd ret] in *.
    repeat split; auto; try apply Hcut2. congruence.
Qed.

(** X17 at five calls on a stopped stream without control channel. *)
Lemma do_calls_stay_cut_off_witness :
  cut_off (m_out (snd (do_calls [CallWrite 4096;
                                 CallSetParameters (Some "true"%string);
                                 CallSetParameters (Some "false"%string);
                                 CallStandby; CallWrite 4096] ctrl_lost))) /\
  Forall2 write_refused
    [CallWrite 4096; CallSetParameters (Some "true"%string);
     CallSetParameters (Some "false"%string); CallStandby; CallWrite 4096]
    (fst (do_calls [CallWrite 4096; CallSetParameters (Some "true"%string);
                    CallSetParameters (Some "false"%string);
                    CallStandby; CallWrite 4096] ctrl_lost)) /\
  sent_data (m_trace (snd (do_calls [CallWrite 4096;
                                     CallSetParameters (Some "true"%string);
                                     CallSetParameters (Some "false"%string);
                                     CallStandby; CallWrite 4096] ctrl_lost)))
  = sent_data (m_trace ctrl_lost).
Proof.
  apply (do_calls_stay_cut_off
           [CallWrite 4096; CallSetParameters (Some "true"%string);
            CallSetParameters (Some "false"%string);
            CallStandby; CallWrite 4096] ctrl_lost).
  unfold cut_off. cbn. split; [reflexivity | discriminate].
Defined.

(** ** Open and close *)

Lemma skt_connect_beside_ctrl (p : skt_path) : keeps beside_ctrl (skt_connect p).
Proof. unfold skt_connect. keeps_tac. Qed.

Lemma skt_disconnect_beside_ctrl (fd : Z) : keeps beside_ctrl (skt_disconnect fd).
Proof. unfold skt_disconnect. keeps_tac. Qed.

#[local] Hint Resolve skt_connect_beside_ctrl skt_disconnect_beside_ctrl : keeps.

Lemma ctrl_drop_beside_ctrl : keeps beside_ctrl ctrl_drop.
Proof. unfold ctrl_drop. keeps_tac. Qed.

#[local] Hint Resolve ctrl_drop_beside_ctrl : keeps.

Lemma a2dp_command_beside_ctrl (cmd : Z) : keeps beside_ctrl (a2dp_command cmd).
Proof. unfold a2dp_command. keeps_tac. Qed.

#[local] Hint Resolve a2dp_command_beside_ctrl : keeps.

Lemma check_a2dp_ready_beside_ctrl : keeps beside_ctrl check_a2dp_ready.
Proof. unfold check_a2dp_ready. keeps_tac. Qed.

#[local] Hint Resolve check_a2dp_ready_beside_ctrl : keeps.

Lemma ctrl_chan_retry_beside_ctrl (n : nat) : keeps beside_ctrl (ctrl_chan_retry n).
Proof. induction n as [| n IH]; cbn [ctrl_chan_retry]; keeps_tac. Qed.

Lemma skt_connect_trace (p : skt_path) (m : machine) :
  connects (m_trace (snd (skt_connect p m))) = S (connects (m_trace m)) /\
  slept (m_trace (snd (skt_connect p m))) = slept (m_trace m).
Proof.
  unfold skt_connect. run. split_if; run; measure; split; lia.
Qed.

Lemma skt_disconnect_trace (fd : Z) (m : machine) :
  connects (m_trace (snd (skt_disconnect fd m))) = connects (m_trace m) /\
  slept (m_trace (snd (skt_disconnect fd m))) = slept (m_trace m).
Proof.
  unfold skt_disconnect. split_if; run; measure; split; lia.
Qed.

Lemma check_a2dp_ready_trace (m : machine) :
  connects (m_trace (snd (check_a2dp_ready m))) = connects (m_trace m) /\
  slept (m_trace (snd (check_a2dp_ready m))) = slept (m_trace m).
Proof.
  unfold check_a2dp_ready. run.
  destruct (a2dp_command_trace A2DP_CTRL_CMD_CHECK_READY m) as (_ & _ & Hc & Hs).
  destruct (a2dp_command _ m) as [r m1]. cbn [snd] in *.
  split_if; run; auto.
Qed.

(** The retry loop connects at most once and sleeps at most half a second
    per iteration. *)
Lemma ctrl_chan_retry_bounds (n : nat) (m : machine) :
  (connects (m_trace (snd (ctrl_chan_retry n m))) <= connects (m_trace m) + n)%nat /\
  slept (m_trace m) <= slept (m_trace (snd (ctrl_chan_retry n m)))
  <= slept (m_trace m) + 500000 * Z.of_nat n.
Proof.
  revert m. induction n as [| n IH]; intros m; cbn [ctrl_chan_retry].
  - cbn. lia.
  - run.
    destruct (skt_connect_trace A2DP_CTRL_PATH m) as [Hc Hs].
    destruct (skt_connect A2DP_CTRL_PATH m) as [fd m1]. cbn [snd] in *.
    run.
    destruct (fd >? 0); run.
    + match goal with
      | |- context [check_a2dp_ready ?mm] =>
          destruct (check_a2dp_ready_trace mm) as [Hc2 Hs2];
          destruct (check_a2dp_ready mm) as [r m2]
      end.
      cbn [snd m_trace] in *.
      destruct (r =? 0); run.
      * lia.
      * match goal with
        | |- context [skt_disconnect ?fd' ?mm] =>
            destruct (skt_disconnect_trace fd' mm) as [Hc3 Hs3];
            destruct (skt_disconnect fd' mm) as [z m3]
        end.
        cbn [snd m_trace] in *. revert Hc3 Hs3. measure. intros Hc3 Hs3.
        match goal with
        | |- context [ctrl_chan_retry n ?mm] =>
            destruct (IH mm) as [IHc IHs]; revert IHc IHs
        end.
        cbn [m_trace]. measure. lia.
    + match goal with
      | |- context [ctrl_chan_retry n ?mm] =>
          destruct (IH mm) as [IHc IHs]; revert IHc IHs
      end.
      cbn [m_trace]. measure. lia.
Qed.

Section OpenExtras.

Variables (default_rate default_format default_channels buffer : Z).

Local Abbreviation open_stream :=
  (adev_open_output_stream default_rate default_format default_channels buffer).

(** X18: [adev_open_output_stream] makes at most three connection
    attempts and sleeps at most 1.75 seconds in all, whatever the stack
    answers. *)
Theorem adev_open_output_stream_bounded (m : machine) :
  (connects (m_trace (snd (open_stream m))) <= connects (m_trace m) + 3)%nat /\
  slept (m_trace (snd (open_stream m))) <= slept (m_trace m) + 1750000.
Proof.
  unfold adev_open_output_stream, a2dp_stream_out_init, CTRL_CHAN_RETRY_COUNT.
  run. split_if; run; measure; [lia |].
  match goal with
  | |- context [ctrl_chan_retry 3 ?mm] =>
      destruct (ctrl_chan_retry_bounds 3 mm) as [Hc Hs]; revert Hc Hs
  end.
  cbn [m_trace]. measure.
  destruct (ctrl_chan_retry 3 _) as [u m1]. cbn [snd]. intros Hc Hs.
  split_if; run; measure; cbn [Z.of_nat Pos.of_succ_nat Pos.succ Z.mul Pos.mul] in *; lia.
Qed.

(** X19: when [adev_open_output_stream] returns [0] the caller holds a
    stream in state [STOPPED], with the data socket disconnected, the
    default configuration and buffer size, and a control handle that is
    not the disconnected sentinel; both pointers refer to it. *)
Theorem adev_open_output_stream_initialises (m : machine) :
  fst (open_stream m) = 0 ->
  state (m_out (snd (open_stream m))) = AUDIO_A2DP_STATE_STOPPED /\
  audio_fd (m_out (snd (open_stream m))) = AUDIO_SKT_DISCONNECTED /\
  ctrl_fd (m_out (snd (open_stream m))) <> AUDIO_SKT_DISCONNECTED /\
  cfg (m_out (snd (open_stream m)))
  = mk_config default_rate default_channels default_format /\
  buffer_sz (m_out (snd (open_stream m))) = buffer /\
  m_allocated (snd (open_stream m)) = true /\
  m_stream_out (snd (open_stream m)) = PTR_OUT /\
  m_dev_output (snd (open_stream m)) = PTR_OUT.
Proof.
  unfold adev_open_output_stream, a2dp_stream_out_init, CTRL_CHAN_RETRY_COUNT.
  run. split_if; run; [cbv; discriminate |].
  match goal with
  | |- context [ctrl_chan_retry 3 ?mm] =>
      pose proof (ctrl_chan_retry_beside_ctrl 3 mm) as Hk
  end.
  unfold beside_ctrl in Hk. cbn [m_out m_allocated m_stream_out m_dev_output] in Hk.
  destruct (ctrl_chan_retry 3 _) as [u m1]. cbn [snd] in *.
  pose proof (f_equal (fun x => fst (fst (fst x))) Hk) as Ho.
  pose proof (f_equal (fun x => snd (fst (fst x))) Hk) as Ha.
  pose proof (f_equal (fun x => snd (fst x)) Hk) as Hs.
  pose proof (f_equal snd Hk) as Hd.
  cbn [fst snd] in Ho, Ha, Hs, Hd. clear Hk.
  destruct (ctrl_fd (m_out m1) =? AUDIO_SKT_DISCONNECTED) eqn:Hc; run;
    [discriminate |].
  intros _. apply Z.eqb_neq in Hc.
  destruct (m_out m1) as [c a b s g]. cbn in *.
  injection Ho as -> -> -> ->. auto 10.
Qed.

(** X20: when there is no memory for the stream object,
    [adev_open_output_stream] returns [-ENOMEM]; it has made no other call
    and written neither pointer. *)
Theorem adev_open_output_stream_no_memory (m : machine) :
  sys_ret (upcoming m 0) = 0 ->
  fst (open_stream m) = - ENOMEM /\
  m_trace (snd (open_stream m)) = m_trace m ++ [EvCalloc] /\
  m_allocated (snd (open_stream m)) = m_allocated m /\
  m_stream_out (snd (open_stream m)) = m_stream_out m /\
  m_dev_output (snd (open_stream m)) = m_dev_output m.
Proof.
  unfold upcoming. rewrite Nat.add_0_r. intros H0.
  unfold adev_open_output_stream. run. rewrite H0. cbn. auto.
Qed.

End OpenExtras.

(** X19 at a device whose stack is ready at the first attempt. *)
Lemma adev_open_output_stream_initialises_witness :
  state (m_out (snd (adev_open_output_stream 44100 1 3 10240 stack_ready)))
  = AUDIO_A2DP_STATE_STOPPED /\
  audio_fd (m_out (snd (adev_open_output_stream 44100 1 3 10240 stack_ready)))
  = AUDIO_SKT_DISCONNECTED /\
  ctrl_fd (m_out (snd (adev_open_output_stream 44100 1 3 10240 stack_ready)))
  <> AUDIO_SKT_DISCONNECTED /\
  cfg (m_out (snd (adev_open_output_stream 44100 1 3 10240 stack_ready)))
  = mk_config 44100 3 1 /\
  buffer_sz (m_out (snd (adev_open_output_stream 44100 1 3 10240 stack_ready)))
  = 10240 /\
  m_allocated (snd (adev_open_output_stream 44100 1 3 10240 stack_ready))
  = true /\
  m_stream_out (snd (adev_open_output_stream 44100 1 3 10240 stack_ready))
  = PTR_OUT /\
  m_dev_output (snd (adev_open_output_stream 44100 1 3 10240 stack_ready))
  = PTR_OUT.
Proof.
  apply (adev_open_output_stream_initialises 44100 1 3 10240 stack_ready). reflexivity.
Defined.

(** X20 at a device without memory. *)
Lemma adev_open_output_stream_no_memory_witness :
  fst (adev_open_output_stream 44100 1 3 10240 no_memory) = - ENOMEM /\
  m_trace (snd (adev_open_output_stream 44100 1 3 10240 no_memory))
  = m_trace no_memory ++ [EvCalloc] /\
  m_allocated (snd (adev_open_output_stream 44100 1 3 10240 no_memory))
  = m_allocated no_memory /\
  m_stream_out (snd (adev_open_output_stream 44100 1 3 10240 no_memory))
  = m_stream_out no_memory /\
  m_dev_output (snd (adev_open_output_stream 44100 1 3 10240 no_memory))
  = m_dev_output no_memory.
Proof.
  apply (adev_open_output_stream_no_memory 44100 1 3 10240 no_memory). reflexivity.
Defined.

(** X21 at a device whose control endpoint refuses every connection. *)
Lemma adev_open_output_stream_connect_refused_witness :
  fst (adev_open_output_stream 44100 1 3 10240 ctrl_endpoint_down) = -1 /\
  m_allocated (snd (adev_open_output_stream 44100 1 3 10240 ctrl_endpoint_down))
  = false /\
  m_stream_out (snd (adev_open_output_stream 44100 1 3 10240 ctrl_endpoint_down))
  = NULL /\
  m_dev_output (snd (adev_open_output_stream 44100 1 3 10240 ctrl_endpoint_down))
  = NULL.
Proof.
  apply (adev_open_output_stream_connect_refused
           44100 1 3 10240
           ctrl_endpoint_down);
    try reflexivity.
  cbv. discriminate.
Defined.

(** X22 at the same device. *)
Lemma adev_open_output_stream_failure_is_clean_witness :
  m_allocated (snd (adev_open_output_stream 44100 1 3 10240 ctrl_endpoint_down))
  = false /\
  m_stream_out (snd (adev_open_output_stream 44100 1 3 10240 ctrl_endpoint_down))
  = NULL /\
  m_dev_output (snd (adev_open_output_stream 44100 1 3 10240 ctrl_endpoint_down))
  = NULL.
Proof.
  apply (adev_open_output_stream_failure_is_clean
           44100 1 3 10240
           ctrl_endpoint_down).
  reflexivity.
Defined.

Lemma skt_disconnect_sent (fd : Z) (m : machine) :
  sent_cmds (m_trace (snd (skt_disconnect fd m))) = sent_cmds (m_trace m) /\
  sent_data (m_trace (snd (skt_disconnect fd m))) = sent_data (m_trace m).
Proof.
  unfold skt_disconnect. split_if; run; measure; auto.
Qed.

Lemma stop_audio_datapath_sent (m : machine) :
  sent_cmds (m_trace (snd (stop_audio_datapath m)))
  = sent_cmds (m_trace m)
    ++ (if ctrl_fd (m_out m) =? AUDIO_SKT_DISCONNECTED then []
        else [A2DP_CTRL_CMD_STOP]) /\
  sent_data (m_trace (snd (stop_audio_datapath m))) = sent_data (m_trace m).
Proof.
  unfold stop_audio_datapath. run.
  destruct (ctrl_fd (m_out m) =? AUDIO_SKT_DISCONNECTED); run;
    [rewrite app_nil_r; auto |].
  destruct (a2dp_command_trace A2DP_CTRL_CMD_STOP
              (entering AUDIO_A2DP_STATE_STOPPING m)) as (Hc & Hd & _).
  unfold entering, with_out in *.
  destruct (a2dp_command _ _) as [r m1]. cbn [snd m_trace] in *.
  destruct (r <? 0); run; auto.
  match goal with
  | |- context [skt_disconnect ?fd ?mm] =>
      destruct (skt_disconnect_sent fd mm) as [Hc2 Hd2];
      destruct (skt_disconnect fd mm) as [z m2]
  end.
  cbn [snd m_trace] in *. split; congruence.
Qed.

(** X23: [adev_close_output_stream] always frees the stream object, as its
    last act, and clears the device's pointer to it.  It sends the Stop
    command exactly when the stream is [STARTED] or [STOPPING] and has a
    control channel, and it sends no other command and no payload. *)
Theorem adev_close_output_stream_releases (m : machine) :
  m_allocated (snd (adev_close_output_stream m)) = false /\
  m_dev_output (snd (adev_close_output_stream m)) = NULL /\
  last (m_trace (snd (adev_close_output_stream m))) EvCalloc = EvFree /\
  sent_cmds (m_trace (snd (adev_close_output_stream m)))
  = sent_cmds (m_trace m)
    ++ (if (a2dp_state_eqb (state (m_out m)) AUDIO_A2DP_STATE_STARTED
            || a2dp_state_eqb (state (m_out m)) AUDIO_A2DP_STATE_STOPPING)
           && negb (ctrl_fd (m_out m) =? AUDIO_SKT_DISCONNECTED)
        then [A2DP_CTRL_CMD_STOP] else []) /\
  sent_data (m_trace (snd (adev_close_output_stream m))) = sent_data (m_trace m).
Proof.
  unfold adev_close_output_stream. run.
  destruct (a2dp_state_eqb (state (m_out m)) AUDIO_A2DP_STATE_STARTED
            || a2dp_state_eqb (state (m_out m)) AUDIO_A2DP_STATE_STOPPING);
    cbn [andb]; run.
  - destruct (stop_audio_datapath_sent m) as [Hc Hd].
    destruct (stop_audio_datapath m) as [r m1]. cbn [snd] in *.
    match goal with
    | |- context [skt_disconnect ?fd ?mm] =>
        destruct (skt_disconnect_sent fd mm) as [Hc2 Hd2];
        destruct (skt_disconnect fd mm) as [z m2]
    end.
    cbn [snd m_trace] in *. rewrite last_last. measure.
    destruct (ctrl_fd (m_out m) =? AUDIO_SKT_DISCONNECTED); cbn [negb];
      repeat split; congruence.
  - match goal with
    | |- context [skt_disconnect ?fd ?mm] =>
        destruct (skt_disconnect_sent fd mm) as [Hc2 Hd2];
        destruct (skt_disconnect fd mm) as [z m2]
    end.
    cbn [snd m_trace] in *. rewrite last_last. measure.
    repeat split; congruence.
Qed.

Lemma adev_close_output_stream_dev_output (m : machine) :
  m_dev_output (snd (adev_close_output_stream m)) = NULL.
Proof.
  unfold adev_close_output_stream. run.
  repeat match goal with
         | |- context [let (_, _) := ?c in _] => destruct c
         | |- context [if ?b then _ else _] => destruct b
         end; reflexivity.
Qed.

(** X24: once the stream is closed, the device's parameter entry neither
    reads nor writes the freed stream object: [adev_set_parameters] returns
    [0] and makes no call, whatever the key says. *)
Theorem adev_set_parameters_after_close (closing : option string) (m : machine) :
  adev_set_parameters closing (snd (adev_close_output_stream m))
  = (0, snd (adev_close_output_stream m)).
Proof.
  unfold adev_set_parameters.
  now rewrite adev_close_output_stream_dev_output.
Qed.

(** ** Accessors *)

(** X25: [out_set_sample_rate] accepts the default rate and nothing else.
    A refused rate returns [-1] and changes nothing; the accepted rate is
    what [out_get_sample_rate] returns afterwards, and only the rate field
    is written. *)
Theorem out_set_sample_rate_only_default (default_rate r : Z) (m : machine) :
  (r = default_rate /\
   fst (out_set_sample_rate default_rate r m) = 0 /\
   fst (out_get_sample_rate (snd (out_set_sample_rate default_rate r m)))
   = default_rate /\
   snd (out_set_sample_rate default_rate r m) = with_out (set_rate default_rate) m)
  \/
  (r <> default_rate /\ out_set_sample_rate default_rate r m = (-1, m)).
Proof.
  unfold out_set_sample_rate, out_get_sample_rate. run.
  destruct (r =? default_rate) eqn:E; cbn [negb]; to_prop.
  - left. subst r. cbn. auto.
  - right. auto.
Qed.

(** X26: while nothing wraps, the latency reported for the stream is 200
    ms more than the whole milliseconds of audio its buffer holds. *)
Theorem out_get_latency_value (frame_size : Z) (m : machine) :
  0 < frame_size ->
  0 < rate (cfg (m_out m)) ->
  0 <= buffer_sz (m_out m) ->
  buffer_sz (m_out m) * 1000 < 2 ^ 32 ->
  buffer_sz (m_out m) * 1000 / frame_size / rate (cfg (m_out m)) <= 2147483 ->
  out_get_latency frame_size m
  = (buffer_sz (m_out m) * 1000 / frame_size / rate (cfg (m_out m)) + 200, m).
Proof.
  intros Hf Hr Hb Hfit Hms.
  unfold out_get_latency. run. f_equal.
  rewrite (to_uint32_small (buffer_sz (m_out m) * 1000)) by lia.
  set (q := buffer_sz (m_out m) * 1000 / frame_size / rate (cfg (m_out m))) in *.
  assert (0 <= q).
  { unfold q. apply Z.div_pos; [apply Z.div_pos |]; lia. }
  change (2 ^ 32) with 4294967296 in *.
  rewrite (to_uint32_small (q * 1000)) by (change (2 ^ 32) with 4294967296; lia).
  rewrite to_int_small
    by (change (2 ^ 31) with 2147483648; lia).
  rewrite Z.quot_div_nonneg by lia.
  rewrite Z.div_mul by lia.
  apply to_uint32_small. change (2 ^ 32) with 4294967296. lia.
Qed.

(** X26 at the 20 * 512 byte buffer of a 44.1 kHz stereo stream, four
    bytes to the frame: 258 ms. *)
Lemma out_get_latency_value_witness :
  out_get_latency 4 suspended_stream = (258, suspended_stream).
Proof.
  apply (out_get_latency_value 4 suspended_stream);
    try reflexivity; cbv; discriminate.
Defined.
